(** * flask_open_directory: models, queries and their resolution rules

    A shallow embedding of the query and attribute-mapping engine of
    [flask_open_directory]:

    - [model/model_abc.py], [model/model.py], [model/__init__.py]:
      [Attribute], [ModelABC], [BaseModel], [User], [Group];
    - [base/open_directory_abc.py], [base/__init__.py]: the
      [OpenDirectoryABC] interface and [BaseOpenDirectory];
    - [query/base_query.py], [query/__init__.py]: [BaseQuery], [Query].

    Python objects that are mutated in place (a query) are modelled by
    explicit state passing; exceptions by a result type. *)

From stdpp Require Import gmap strings list.

Set Warnings "-register-all".

(** ** Python preliminaries *)

(** The two exceptions the modelled code can raise by itself. *)
Inductive exn := TypeError | AttributeError.

Inductive res (A : Type) :=
| Ok (a : A)
| Raise (e : exn).
Arguments Ok {A} a.
Arguments Raise {A} e.

Global Instance res_ret : MRet res := fun A a => Ok a.
Global Instance res_bind : MBind res := fun A B f m =>
  match m with
  | Ok a => f a
  | Raise e => Raise e
  end.

(** [tuple(map(f, xs))] for an [f] that may raise: the first exception
    aborts the whole traversal. *)
Fixpoint res_map {A B} (f : A -> res B) (xs : list A) : res (list B) :=
  match xs with
  | [] => Ok []
  | x :: xs' => y ← f x; ys ← res_map f xs'; mret (y :: ys)
  end.

(** [needle in hay] on Python strings. *)
Fixpoint str_contains (needle hay : string) : bool :=
  String.prefix needle hay ||
  match hay with
  | EmptyString => false
  | String _ hay' => str_contains needle hay'
  end.

(** [str.lower] on ASCII strings: the letters A to Z are lowered and every
    other byte is left as it is, so the function is [str.lower] only on
    strings without non-ASCII letters (see [is_ascii]). *)
Definition ascii_lower (c : Ascii.ascii) : Ascii.ascii :=
  let n := Ascii.nat_of_ascii c in
  if (65 <=? n) && (n <=? 90) then Ascii.ascii_of_nat (n + 32) else c.

Fixpoint lower (s : string) : string :=
  match s with
  | EmptyString => EmptyString
  | String c s' => String (ascii_lower c) (lower s')
  end.

(** Lookup in a Python [dict] kept as its item list, in insertion order. *)
Definition dict_get {A} (key : string) (items : list (string * A)) : option A :=
  snd <$> find (fun kv => String.eqb (fst kv) key) items.

(** A Python dict never holds a key twice. *)
Definition dict_like {A} (items : list (string * A)) : Prop := NoDup items.*1.

(** ** The directory side: entries, connections, open directories *)

(** An [ldap3.Entry]: [entry_attributes_as_dict] maps every returned key to
    the list of its values. *)
Record Entry := {
  entry_dn : string;
  entry_attributes_as_dict : list (string * list string)
}.

(** An [ldap3.Connection], as far as a query uses it:
    [search base filter attributes] stands for
    [conn.search(base, filter, attributes=attributes)] followed by reading
    [conn.entries]. *)
Record Connection := {
  conn_name : string;
  search : option string -> string -> option (list string) -> list Entry
}.

Module OpenDirectoryABC.
(** The abstract properties of [OpenDirectoryABC], by their values:
    [connection] is the shared connection ([None] outside an application
    context), [connection_ctx] is what the context manager yields. *)
Record t := {
  server_url : string;
  base_dn : string;
  connection : option Connection;
  connection_ctx : option Connection
}.
End OpenDirectoryABC.
Abbreviation OpenDirectory := OpenDirectoryABC.t.

(** ** Models *)

(** [model.Attribute]. *)
Record Attribute := {
  ldap_key : string;
  allow_multiple : bool
}.

(** A member of a class namespace: an [Attribute], the value [None] (the
    [__doc__] of a class without docstring), or anything else (a method,
    a docstring, ...). *)
Inductive member :=
| MAttr (a : Attribute)
| MOther
| MNone.

(** A [BaseModel] subclass: its [__name__], its [_query_cn] class attribute
    and its own namespace [vars(cls)] in definition order. *)
Record Model := {
  __name__ : string;
  _query_cn : option string;
  vars : list (string * member)
}.

(** A model instance: its class, the internal storage [_ldap_values], and
    the ordinary instance [__dict__]. *)
Record Instance_ (V : Type) := {
  __class__ : Model;
  _ldap_values : gmap string V;
  __dict__ : gmap string V
}.
Arguments __class__ {V} _.
Arguments _ldap_values {V} _.
Arguments __dict__ {V} _.

(** The Python values that reach the modelled code.  [VObject] is any
    other object: truthy, not iterable, and neither a model, a connection
    nor an open directory. *)
Inductive value :=
| VNone
| VBool (b : bool)
| VInt (n : Z)
| VStr (s : string)
| VList (l : list value)
| VClass (cls : Model)
| VInstance (i : Instance_ value)
| VConnection (c : Connection)
| VOpenDirectory (od : OpenDirectory)
| VObject (tag : string).

Abbreviation Instance := (Instance_ value).

(** [bool(value)]. *)
Definition truthy (v : value) : bool :=
  match v with
  | VNone => false
  | VBool b => b
  | VInt n => negb (n =? 0)%Z
  | VStr s => negb (String.eqb s "")
  | VList l => match l with [] => false | _ :: _ => true end
  | _ => true
  end.

(** *** [BaseModel], with the defaults it inherits from [ModelABC] *)

Module BaseModel.

(** [BaseModel.ldap_attribute_map]: python attribute name to ldap entry
    key, for the [Attribute] members of [vars(cls)]. *)
Definition ldap_attribute_map (cls : Model) : list (string * string) :=
  omap (fun kv => match snd kv with
                  | MAttr a => Some (fst kv, ldap_key a)
                  | MOther | MNone => None
                  end) (vars cls).

(** [ModelABC.ldap_keys]. *)
Definition ldap_keys (cls : Model) : list string :=
  (ldap_attribute_map cls).*2.

(** [ModelABC.attribute_name_for]: the first attribute name whose ldap key
    is [key], [None] when the loop ends without a match. *)
Definition attribute_name_for (cls : Model) (key : string) : option string :=
  fst <$> find (fun kv => String.eqb (snd kv) key) (ldap_attribute_map cls).

(** [ModelABC.query_cn]: [cls._query_cn or cls.__name__.lower() + 's']. *)
Definition query_cn (cls : Model) : string :=
  match _query_cn cls with
  | Some cn => if String.eqb cn "" then lower (__name__ cls) +:+ "s" else cn
  | None => lower (__name__ cls) +:+ "s"
  end.

(** [BaseModel.attribute_for_key]: an ldap key is first mapped back to its
    attribute name, then the name is looked up in [vars(cls)] (whatever the
    member found there is).  The function returns the value found, so a
    member that is [None] comes back as the [None] of a miss. *)
Definition attribute_for_key (cls : Model) (key : string) : option member :=
  let key' := if bool_decide (key ∈ ldap_keys cls)
              then attribute_name_for cls key
              else Some key in
  match key' with
  | Some k =>
      match dict_get k (vars cls) with
      | Some MNone => None
      | found => found
      end
  | None => None
  end.

(** *** [BaseModel] instances *)

(** [BaseModel.__setattr__]: attribute names and ldap keys are routed to
    the internal storage under the attribute name, everything else to the
    default implementation.  (In the second branch [attribute_name_for]
    always finds a name.)  The default implementation is modelled for the
    keys it simply puts into the instance dictionary; under the names the
    machinery of [BaseModel] and of every object lives on
    ([reserved_names]) or that the class binds to something else, Python
    raises, replaces the storage or shadows a method instead, and the
    statements about this branch keep to [plain_key]s. *)
Definition __setattr__ (self : Instance) (key : string) (v : value) : Instance :=
  let cls := __class__ self in
  if bool_decide (key ∈ (ldap_attribute_map cls).*1) then
    {| __class__ := cls;
       _ldap_values := <[key := v]> (_ldap_values self);
       __dict__ := __dict__ self |}
  else if bool_decide (key ∈ ldap_keys cls) then
    match attribute_name_for cls key with
    | Some name =>
        {| __class__ := cls;
           _ldap_values := <[name := v]> (_ldap_values self);
           __dict__ := __dict__ self |}
    | None => self
    end
  else
    {| __class__ := cls;
       _ldap_values := _ldap_values self;
       __dict__ := <[key := v]> (__dict__ self) |}.

(** [BaseModel.__init__], called with keyword arguments [kwargs]: one
    [setattr] per item, in order; like [__setattr__], modelled for
    [plain_key]s (the keyword [self], for one, cannot even be passed). *)
Definition __init__ (cls : Model) (kwargs : list (string * value)) : Instance :=
  fold_left (fun self kv => __setattr__ self (fst kv) (snd kv)) kwargs
            {| __class__ := cls; _ldap_values := ∅; __dict__ := ∅ |}.

(** The keyword arguments [**entry.entry_attributes_as_dict]. *)
Definition entry_kwargs (e : Entry) : list (string * value) :=
  (fun kv => (fst kv, VList (VStr <$> snd kv))) <$> entry_attributes_as_dict e.

(** [ModelABC.from_entry].  The argument is whatever the caller hands
    over: an entry, or [None], on which reading
    [entry_attributes_as_dict] raises [AttributeError].  The construction
    from an entry is that of [__init__], modelled for entries whose keys
    are [plain_key]s. *)
Definition from_entry (cls : Model) (entry : option Entry) : res Instance :=
  match entry with
  | Some e => Ok (__init__ cls (entry_kwargs e))
  | None => Raise AttributeError
  end.

(** [object.__getattribute__(self, key).allow_multiple]: the class member
    behind [key]; only an [Attribute] has the field. *)
Definition member_allow_multiple (cls : Model) (key : string) : res bool :=
  match dict_get key (vars cls) with
  | Some (MAttr a) => Ok (allow_multiple a)
  | _ => Raise AttributeError
  end.

(** [BaseModel._get_ldap_value]. *)
Definition _get_ldap_value (self : Instance) (key : string) : res value :=
  let v := default VNone (_ldap_values self !! key) in
  if truthy v then
    multiple ← member_allow_multiple (__class__ self) key;
    if negb multiple then
      match v with
      | VList (x :: _) => Ok x
      | _ => Ok v
      end
    else Ok v
  else Ok v.

(** The default lookup [object.__getattribute__(self, key)] for a name
    that is not a mapped attribute: the instance dictionary, then the
    namespace of the class (a method or other class attribute, kept
    opaque).  The names that [BaseModel], [ModelABC] and [object] define
    themselves ([reserved_names] and the inherited methods) are looked
    up by Python before or after these two places; they are not
    modelled, and no statement below reads one of them. *)
Definition object_getattribute (self : Instance) (key : string) : res value :=
  match __dict__ self !! key with
  | Some v => Ok v
  | None =>
      match dict_get key (vars (__class__ self)) with
      | Some MNone => Ok VNone
      | Some _ => Ok (VObject key)
      | None => Raise AttributeError
      end
  end.

(** [BaseModel.__getattribute__]. *)
Definition __getattribute__ (self : Instance) (key : string) : res value :=
  let cls := __class__ self in
  let ldap_key :=
    if bool_decide (key ∈ (ldap_attribute_map cls).*1) then Some key
    else if bool_decide (key ∈ ldap_keys cls) then attribute_name_for cls key
    else None in
  match ldap_key with
  | Some k => _get_ldap_value self k
  | None => object_getattribute self key
  end.

End BaseModel.

(** *** The models of [model/__init__.py] *)

(** [vars(cls)] of each class: what the class body binds, in order, and
    after it the two entries [ABCMeta] adds to every class it creates. *)

Definition User : Model := {|
  __name__ := "User";
  _query_cn := None;
  vars := [ ("__module__", MOther);
            ("__doc__", MOther);
            ("id", MAttr {| ldap_key := "apple-generateduid"; allow_multiple := false |});
            ("username", MAttr {| ldap_key := "uid"; allow_multiple := false |});
            ("email", MAttr {| ldap_key := "mail"; allow_multiple := true |});
            ("full_name", MAttr {| ldap_key := "cn"; allow_multiple := false |});
            ("__abstractmethods__", MOther);
            ("_abc_impl", MOther) ]
|}.

Definition Group : Model := {|
  __name__ := "Group";
  _query_cn := None;
  vars := [ ("__module__", MOther);
            ("__doc__", MOther);
            ("id", MAttr {| ldap_key := "apple-generateduid"; allow_multiple := false |});
            ("group_name", MAttr {| ldap_key := "cn"; allow_multiple := false |});
            ("full_name", MAttr {| ldap_key := "apple-group-realname"; allow_multiple := false |});
            ("users", MAttr {| ldap_key := "memberUid"; allow_multiple := true |});
            ("member_ids", MAttr {| ldap_key := "apple-group-memberguid"; allow_multiple := true |});
            ("has_user", MOther);
            ("__abstractmethods__", MOther);
            ("_abc_impl", MOther) ]
|}.

(** [x in container] for a string [x]: membership in a list (elements
    compare equal only when they are the same string), substring test in a
    string, [TypeError] on anything that is not a container. *)
Definition py_in (x : string) (container : value) : res bool :=
  match container with
  | VList l => Ok (existsb (fun y => match y with
                                      | VStr s => String.eqb x s
                                      | _ => false
                                      end) l)
  | VStr s => Ok (str_contains x s)
  | _ => Raise TypeError
  end.

(** [Group.has_user]. *)
Definition has_user (self : Instance) (user : string) : res bool :=
  users ← BaseModel.__getattribute__ self "users";
  in_users ← match users with
             | VNone => Ok false
             | _ => py_in user users
             end;
  if in_users : bool then Ok true
  else
    member_ids ← BaseModel.__getattribute__ self "member_ids";
    in_ids ← match member_ids with
             | VNone => Ok false
             | _ => py_in user member_ids
             end;
    if in_ids : bool then Ok true else Ok false.

(** ** [BaseQuery] *)

(** What a query hands back for one match: nothing, the raw entry, or the
    entry converted to the bound model. *)
Inductive found :=
| Absent
| RawEntry (e : Entry)
| Converted (i : Instance).

Module BaseQuery.

(** The private attributes of a query; [None] when the attribute was
    never stored ([getattr(self, '_x', None)]). *)
Record t := {
  _search_base : option string;
  _search_filter : option string;
  _connection : option Connection;
  _ldap_attributes : option (list string);
  _model : option Model;
  _open_directory : option OpenDirectory
}.

(** A method of a query: runs on the current attributes, returns a value
    or raises, and leaves the (possibly mutated) query behind. *)
Definition M (A : Type) : Type := t -> res A * t.

#[global] Instance M_ret : MRet M := fun A a q => (Ok a, q).
#[global] Instance M_bind : MBind M := fun A B f m q =>
  match m q with
  | (Ok a, q') => f a q'
  | (Raise e, q') => (Raise e, q')
  end.

Definition get : M t := fun q => (Ok q, q).
Definition put (q : t) : M unit := fun _ => (Ok tt, q).
Definition raise {A} (e : exn) : M A := fun q => (Raise e, q).
Definition lift {A} (r : res A) : M A := fun q => (r, q).

Definition _default_search_filter : string := "(objectClass=*)".

(** *** Properties: getters *)

Definition model (q : t) : option Model := _model q.

Definition open_directory (q : t) : option OpenDirectory := _open_directory q.

(** [search_base]: the explicit value, else the open directory's
    [base_dn], prefixed by the model's [query_cn] when a model is set.
    Reading through an unset [open_directory] or [model] raises
    [AttributeError], which the getter swallows. *)
Definition search_base (q : t) : option string :=
  match _search_base q with
  | Some s => Some s
  | None =>
      let od_base := OpenDirectoryABC.base_dn <$> open_directory q in
      let model_cn := BaseModel.query_cn <$> model q in
      match model_cn, od_base with
      | Some cn, Some base =>
          if negb (str_contains "cn=" cn)
          then Some ("cn=" +:+ cn +:+ "," +:+ base)
          else Some (cn +:+ "," +:+ base)
      | None, Some base => Some base
      | _, None => None
      end
  end.

Definition search_filter (q : t) : string :=
  match _search_filter q with
  | Some s => s
  | None => _default_search_filter
  end.

Definition ldap_attributes (q : t) : option (list string) :=
  match _ldap_attributes q with
  | Some attrs => Some attrs
  | None => BaseModel.ldap_keys <$> model q
  end.

Definition connection (q : t) : option Connection :=
  match _connection q with
  | Some c => Some c
  | None =>
      match open_directory q with
      | Some od => OpenDirectoryABC.connection od
      | None => None
      end
  end.

(** *** Properties: setters *)

Definition model_setter (v : value) : M unit := fun q =>
  if truthy v then
    match v with
    | VInstance i =>
        (Ok tt, {| _search_base := _search_base q;
                   _search_filter := _search_filter q;
                   _connection := _connection q;
                   _ldap_attributes := _ldap_attributes q;
                   _model := Some (__class__ i);
                   _open_directory := _open_directory q |})
    | VClass cls =>
        (Ok tt, {| _search_base := _search_base q;
                   _search_filter := _search_filter q;
                   _connection := _connection q;
                   _ldap_attributes := _ldap_attributes q;
                   _model := Some cls;
                   _open_directory := _open_directory q |})
    | _ => (Raise TypeError, q)
    end
  else (Ok tt, q).

Definition open_directory_setter (v : value) : M unit := fun q =>
  match v with
  | VNone => (Ok tt, q)
  | VOpenDirectory od =>
      (Ok tt, {| _search_base := _search_base q;
                 _search_filter := _search_filter q;
                 _connection := _connection q;
                 _ldap_attributes := _ldap_attributes q;
                 _model := _model q;
                 _open_directory := Some od |})
  | _ => (Raise TypeError, q)
  end.

(** [search_base] and [search_filter] are given as strings (or [None]),
    on which [str(value)] is the identity. *)
Definition search_base_setter (v : option string) : M unit := fun q =>
  match v with
  | None => (Ok tt, q)
  | Some s =>
      (Ok tt, {| _search_base := Some s;
                 _search_filter := _search_filter q;
                 _connection := _connection q;
                 _ldap_attributes := _ldap_attributes q;
                 _model := _model q;
                 _open_directory := _open_directory q |})
  end.

Definition search_filter_setter (v : option string) : M unit := fun q =>
  match v with
  | None => (Ok tt, q)
  | Some s =>
      (Ok tt, {| _search_base := _search_base q;
                 _search_filter := Some s;
                 _connection := _connection q;
                 _ldap_attributes := _ldap_attributes q;
                 _model := _model q;
                 _open_directory := _open_directory q |})
  end.

(** The strings among the items of an iterable. *)
Definition only_str (l : list value) : list string :=
  omap (fun v => match v with VStr s => Some s | _ => None end) l.

(** [ldap_attributes]: a single string is wrapped in a list, an iterable
    is filtered for its strings; [iter] raises [TypeError] on anything
    else that is not [None]. *)
Definition ldap_attributes_setter (v : value) : M unit := fun q =>
  let store attrs :=
    (Ok tt, {| _search_base := _search_base q;
               _search_filter := _search_filter q;
               _connection := _connection q;
               _ldap_attributes := Some attrs;
               _model := _model q;
               _open_directory := _open_directory q |}) in
  match v with
  | VNone => (Ok tt, q)
  | VStr s => store [s]
  | VList l => store (only_str l)
  | _ => (Raise TypeError, q)
  end.

Definition connection_setter (v : value) : M unit := fun q =>
  if truthy v then
    match v with
    | VConnection c =>
        (Ok tt, {| _search_base := _search_base q;
                   _search_filter := _search_filter q;
                   _connection := Some c;
                   _ldap_attributes := _ldap_attributes q;
                   _model := _model q;
                   _open_directory := _open_directory q |})
    | _ => (Raise TypeError, q)
    end
  else (Ok tt, q).

(** A query on which nothing was ever stored. *)
Definition blank : t := {|
  _search_base := None;
  _search_filter := None;
  _connection := None;
  _ldap_attributes := None;
  _model := None;
  _open_directory := None
|}.

(** [BaseQuery.__init__]: every argument goes through its setter, in the
    order of the source. *)
Definition __init__ (open_directory model : value)
           (search_base search_filter : option string)
           (connection ldap_attributes : value) : M unit :=
  search_base_setter search_base;;
  search_filter_setter search_filter;;
  connection_setter connection;;
  ldap_attributes_setter ldap_attributes;;
  model_setter model;;
  open_directory_setter open_directory.

(** *** Running a query *)

(** What [connection_ctx] yields. *)
Definition connection_ctx (q : t) : option Connection :=
  match connection q with
  | Some c => Some c
  | None =>
      match open_directory q with
      | Some od => OpenDirectoryABC.connection_ctx od
      | None => None
      end
  end.

(** The test of [_query]: some attribute of the entry has a value. *)
Definition has_values (e : Entry) : bool :=
  existsb (fun kv => 0 <? length (snd kv)) (entry_attributes_as_dict e).

(** [_query]: the entries the generator yields, in order. *)
Definition _query (connection : value) : M (list Entry) :=
  match connection with
  | VNone => mret tt
  | _ => connection_setter connection
  end;;
  q ← get;
  match connection_ctx q with
  | Some conn =>
      mret (List.filter has_values
              (search conn (search_base q) (search_filter q) (ldap_attributes q)))
  | None => mret []
  end.

(** [first]: [next(self._query(connection), None)], then the optional
    conversion. *)
Definition first (connection : value) (convert : bool) : M found :=
  entries ← _query connection;
  let entry := head entries in
  q ← get;
  match convert, model q with
  | true, Some cls =>
      i ← lift (BaseModel.from_entry cls entry);
      mret (Converted i)
  | _, _ =>
      mret (match entry with
            | Some e => RawEntry e
            | None => Absent
            end)
  end.

(** [all]: the whole tuple; conversion only of a non-empty one. *)
Definition all (connection : value) (convert : bool) : M (list found) :=
  entries ← _query connection;
  q ← get;
  if 0 <? length entries then
    match convert, model q with
    | true, Some cls =>
        converted ← lift (res_map (fun e => BaseModel.from_entry cls (Some e)) entries);
        mret (Converted <$> converted)
    | _, _ => mret (RawEntry <$> entries)
    end
  else mret (RawEntry <$> entries).

End BaseQuery.

(** ** [Query] *)

Module Query.
Import BaseQuery.

(** [_parse_filter_kwargs]: one ['(key=value)'] string per item of
    [kwargs], the key translated by the model when one is set; reading
    [ldap_key] from what [attribute_for_key] returns raises
    [AttributeError] unless it is an [Attribute]. *)
Definition _parse_filter_kwargs (q : t) (kwargs : list (string * string))
  : res (list string) :=
  res_map (fun kv =>
    key ← match model q with
          | Some cls =>
              match BaseModel.attribute_for_key cls (fst kv) with
              | Some (MAttr a) => Ok (ldap_key a)
              | _ => Raise AttributeError
              end
          | None => Ok (fst kv)
          end;
    mret ("(" +:+ key +:+ "=" +:+ snd kv +:+ ")")) kwargs.

Definition _filter_string_from_kwargs (q : t) (kwargs : list (string * string))
  : res (option string) :=
  parsed ← _parse_filter_kwargs q kwargs;
  match parsed with
  | [] => Ok None
  | [p] => Ok (Some p)
  | _ => Ok (Some ("(&" +:+ String.concat "" parsed +:+ ")"))
  end.

(** The first string among the positional arguments. *)
Definition first_str (args : list value) : option string :=
  head (only_str args).

(** [filter]: a positional string wins over the keyword criteria. *)
Definition filter (args : list value) (kwargs : list (string * string)) : M unit :=
  q ← get;
  string ← match first_str args with
           | Some s => mret (Some s)
           | None =>
               if 0 <? length kwargs
               then lift (_filter_string_from_kwargs q kwargs)
               else mret None
           end;
  search_filter_setter string.

Definition __call__ (model : value) : M unit := model_setter model.

End Query.

(** ** [BaseOpenDirectory] *)

Module BaseOpenDirectory.

(** What the class takes from outside the package sources at hand:
    [utils.base_dn_from_url], and the constructors of [ldap3].
    [new_connection url auto_bind serial] is the object that
    [ldap3.Connection(ldap3.Server(url, use_ssl=True), auto_bind=auto_bind)]
    returns when it is the [serial]-th connection created. *)
Record Env := {
  base_dn_from_url : string -> option string;
  new_connection : string -> bool -> nat -> Connection
}.

(** The state around an open directory: flask's [_app_ctx_stack.top]
    (no application context, or a context without or with the attribute
    [open_directory_connection]) and the number of connections created so
    far. *)
Record World := {
  top : option (option Connection);
  created : nat
}.

(** An instance: the keyword arguments kept as [config]. *)
Record t := {
  config : gmap string string
}.

Definition _default_server : string := "localhost".
Definition _default_base_dn : string := "".

Definition server_url (self : t) : string :=
  default _default_server (config self !! "OPEN_DIRECTORY_SERVER").

(** [base_dn]: the configured value or, when there is none, the one
    derived from the server url; [rv or self._default_base_dn]. *)
Definition base_dn (env : Env) (self : t) : string :=
  let rv := match config self !! "OPEN_DIRECTORY_BASE_DN" with
            | Some dn => Some dn
            | None => base_dn_from_url env (server_url self)
            end in
  match rv with
  | Some dn => if String.eqb dn "" then _default_base_dn else dn
  | None => _default_base_dn
  end.

(** [connect]: a new connection, bound at once, owned by the caller. *)
Definition connect (env : Env) (self : t) (w : World) : Connection * World :=
  (new_connection env (server_url self) true (created w),
   {| top := top w; created := S (created w) |}).

(** The property [connection]: nothing without an application context;
    otherwise the connection kept on the context, created on first use. *)
Definition connection (env : Env) (self : t) (w : World)
  : option Connection * World :=
  match top w with
  | None => (None, w)
  | Some (Some c) => (Some c, w)
  | Some None =>
      let (c, w') := connect env self w in
      (Some c, {| top := Some (Some c); created := created w' |})
  end.

(** What [connection_ctx] yields: the shared connection, read a second
    time after the test, or else a temporary connection of its own. *)
Definition connection_ctx (env : Env) (self : t) (w : World)
  : option Connection * World :=
  match connection env self w with
  | (Some _, w') => connection env self w'
  | (None, w') =>
      (Some (new_connection env (server_url self) false (created w')),
       {| top := top w'; created := S (created w') |})
  end.

(** The instance as an [OpenDirectoryABC], by the values its properties
    have when read in the world [w]. *)
Definition as_abc (env : Env) (self : t) (w : World) : OpenDirectory := {|
  OpenDirectoryABC.server_url := server_url self;
  OpenDirectoryABC.base_dn := base_dn env self;
  OpenDirectoryABC.connection := fst (connection env self w);
  OpenDirectoryABC.connection_ctx := fst (connection_ctx env self w)
|}.

End BaseOpenDirectory.

(** ** Vocabulary of the statements *)

(** The [isinstance] / [issubclass] tests of the setters, on values. *)
Definition is_model (v : value) : bool :=
  match v with
  | VClass _ | VInstance _ => true
  | _ => false
  end.

Definition is_connection (v : value) : bool :=
  match v with
  | VConnection _ => true
  | _ => false
  end.

Definition is_open_directory (v : value) : bool :=
  match v with
  | VOpenDirectory _ => true
  | _ => false
  end.

(** The query [q] after [c] was stored as its connection. *)
Definition with_connection (c : Connection) (q : BaseQuery.t) : BaseQuery.t :=
  {| BaseQuery._search_base := BaseQuery._search_base q;
     BaseQuery._search_filter := BaseQuery._search_filter q;
     BaseQuery._connection := Some c;
     BaseQuery._ldap_attributes := BaseQuery._ldap_attributes q;
     BaseQuery._model := BaseQuery._model q;
     BaseQuery._open_directory := BaseQuery._open_directory q |}.

(** The query [q] after [s] was stored as its search filter. *)
Definition with_search_filter (s : string) (q : BaseQuery.t) : BaseQuery.t :=
  {| BaseQuery._search_base := BaseQuery._search_base q;
     BaseQuery._search_filter := Some s;
     BaseQuery._connection := BaseQuery._connection q;
     BaseQuery._ldap_attributes := BaseQuery._ldap_attributes q;
     BaseQuery._model := BaseQuery._model q;
     BaseQuery._open_directory := BaseQuery._open_directory q |}.

(** The entries a search through [c] returns for the current state of [q]. *)
Definition searched (c : Connection) (q : BaseQuery.t) : list Entry :=
  search c (BaseQuery.search_base q) (BaseQuery.search_filter q)
         (BaseQuery.ldap_attributes q).

(** An entry all of whose attribute values are empty sequences. *)
Definition all_empty (e : Entry) : Prop :=
  Forall (fun kv => snd kv = []) (entry_attributes_as_dict e).

(** The external key a criterion key stands for: without a model the key
    itself; with a model, an ldap key of the model stands for itself and
    an attribute name for the ldap key the model maps it to. *)
Definition external_key (q : BaseQuery.t) (key : string) : string :=
  match BaseQuery.model q with
  | None => key
  | Some cls =>
      if bool_decide (key ∈ BaseModel.ldap_keys cls) then key
      else default key (dict_get key (BaseModel.ldap_attribute_map cls))
  end.

(** A criterion key the bound model knows, as attribute name or ldap key. *)
Definition known_key (q : BaseQuery.t) (key : string) : Prop :=
  match BaseQuery.model q with
  | None => True
  | Some cls =>
      key ∈ (BaseModel.ldap_attribute_map cls).*1 ∨ key ∈ BaseModel.ldap_keys cls
  end.

(** The namespace of the bound model is a dictionary. *)
Definition model_namespace_ok (q : BaseQuery.t) : Prop :=
  match BaseQuery.model q with
  | None => True
  | Some cls => dict_like (vars cls)
  end.

Definition criterion (q : BaseQuery.t) (kv : string * string) : string :=
  "(" +:+ external_key q (fst kv) +:+ "=" +:+ snd kv +:+ ")".

(** A stored member list: absent (never stored, or [None]) counts as empty;
    anything but a list is not a member list. *)
Definition member_list (stored : option value) : option (list value) :=
  match stored with
  | None | Some VNone => Some []
  | Some (VList l) => Some l
  | Some _ => None
  end.

(** Assignments to the properties of a query, and a run of them: a
    raising assignment leaves the query as it was and the run goes on
    (the caller caught the exception). *)
Inductive assignment :=
| SetSearchBase (v : option string)
| SetSearchFilter (v : option string)
| SetConnection (v : value)
| SetLdapAttributes (v : value)
| SetModel (v : value)
| SetOpenDirectory (v : value).

Definition assign (a : assignment) : BaseQuery.M unit :=
  match a with
  | SetSearchBase v => BaseQuery.search_base_setter v
  | SetSearchFilter v => BaseQuery.search_filter_setter v
  | SetConnection v => BaseQuery.connection_setter v
  | SetLdapAttributes v => BaseQuery.ldap_attributes_setter v
  | SetModel v => BaseQuery.model_setter v
  | SetOpenDirectory v => BaseQuery.open_directory_setter v
  end.

Definition assign_all (ops : list assignment) (q : BaseQuery.t) : BaseQuery.t :=
  fold_left (fun q a => snd (assign a q)) ops q.

(** Whatever was stored on [q] under one of the five properties is still
    stored (with some value) on [q']. *)
Definition stored_stays (q q' : BaseQuery.t) : Prop :=
  (is_Some (BaseQuery._search_base q) → is_Some (BaseQuery._search_base q')) ∧
  (is_Some (BaseQuery._search_filter q) → is_Some (BaseQuery._search_filter q')) ∧
  (is_Some (BaseQuery._connection q) → is_Some (BaseQuery._connection q')) ∧
  (is_Some (BaseQuery._model q) → is_Some (BaseQuery._model q')) ∧
  (is_Some (BaseQuery._ldap_attributes q) → is_Some (BaseQuery._ldap_attributes q')).

(** What reading an attribute gives for the stored value [v]: the first
    item of a non-empty list when the attribute is single-valued, [v]
    itself otherwise. *)
Definition resolved (a : Attribute) (v : value) : value :=
  if allow_multiple a then v
  else match v with
       | VList (x :: _) => x
       | _ => v
       end.

(** The names an instance of a model has to leave alone: [self], the
    parameter of [__init__]; the names under which [BaseModel] keeps its
    storage and reaches its mapping on the instance; and the special
    attributes of every object.  A write under one of them through the
    default [__setattr__] raises, replaces the storage or shadows a method
    that [BaseModel] calls on the instance. *)
Definition reserved_names : list string :=
  ["self"; "ldap_values"; "_ldap_values"; "ldap_attribute_map";
   "attribute_name_for"; "_get_ldap_value";
   "__dict__"; "__class__"; "__weakref__"].

(** A class that binds none of the reserved names, neither as a name of
    its namespace nor as an ldap key. *)
Definition unreserved (cls : Model) : Prop :=
  Forall (fun n => n ∉ reserved_names)
         ((vars cls).*1 ++ BaseModel.ldap_keys cls).

(** A key under which an instance of [cls] is written as modelled: not a
    reserved name, and either a mapped attribute name, an ldap key of the
    class, or a name the class does not bind at all. *)
Definition plain_key (cls : Model) (key : string) : Prop :=
  (key ∉ reserved_names) ∧
  (key ∈ (BaseModel.ldap_attribute_map cls).*1 ∨
   key ∈ BaseModel.ldap_keys cls ∨
   key ∉ (vars cls).*1).

(** An entry all of whose keys are plain for [cls]. *)
Definition plain_entry (cls : Model) (e : Entry) : Prop :=
  Forall (plain_key cls) (entry_attributes_as_dict e).*1.

(** A string of ASCII characters only. *)
Fixpoint is_ascii (s : string) : bool :=
  match s with
  | EmptyString => true
  | String c s' => (Ascii.nat_of_ascii c <? 128) && is_ascii s'
  end.

(** The values each validating setter of a query lets through. *)
Definition accepts_model (v : value) : bool := negb (truthy v) || is_model v.

Definition accepts_connection (v : value) : bool :=
  negb (truthy v) || is_connection v.

Definition accepts_attributes (v : value) : bool :=
  match v with
  | VNone | VStr _ | VList _ => true
  | _ => false
  end.

Definition accepts_open_directory (v : value) : bool :=
  match v with
  | VNone | VOpenDirectory _ => true
  | _ => false
  end.

(** A run of attribute writes on an instance, in order. *)
Definition setattrs (kwargs : list (string * value)) (self : Instance) : Instance :=
  fold_left (fun self kv => BaseModel.__setattr__ self (fst kv) (snd kv))
            kwargs self.

(** The stored form of the values of one entry attribute. *)
Definition entry_value (vals : list string) : value := VList (VStr <$> vals).

(** [n] accesses of the [connection] property in a row: the connections
    read, and the world left behind. *)
Fixpoint read_connection (env : BaseOpenDirectory.Env) (self : BaseOpenDirectory.t)
         (n : nat) (w : BaseOpenDirectory.World)
  : list (option Connection) * BaseOpenDirectory.World :=
  match n with
  | 0 => ([], w)
  | S n' =>
      let (c, w') := BaseOpenDirectory.connection env self w in
      let (cs, w'') := read_connection env self n' w' in
      (c :: cs, w'')
  end.

(** ** Sample data *)

Definition example_com : OpenDirectory := {|
  OpenDirectoryABC.server_url := "example.com";
  OpenDirectoryABC.base_dn := "dc=example,dc=com";
  OpenDirectoryABC.connection := None;
  OpenDirectoryABC.connection_ctx := None
|}.

(** The pseudo-record a directory returns first: every attribute empty. *)
Definition sentinel : Entry := {|
  entry_dn := "";
  entry_attributes_as_dict := [("uid", []); ("cn", [])]
|}.

Definition alice : Entry := {|
  entry_dn := "uid=alice,cn=users,dc=example,dc=com";
  entry_attributes_as_dict := [("uid", ["alice"]); ("cn", ["Alice A"]); ("mail", [])]
|}.

Definition no_match : Connection := {|
  conn_name := "no-match";
  search := fun _ _ _ => []
|}.

Definition sentinel_only : Connection := {|
  conn_name := "sentinel-only";
  search := fun _ _ _ => [sentinel]
|}.

Definition sentinel_then_alice : Connection := {|
  conn_name := "sentinel-then-alice";
  search := fun _ _ _ => [sentinel; alice]
|}.

Definition user_query : BaseQuery.t := {|
  BaseQuery._search_base := None;
  BaseQuery._search_filter := None;
  BaseQuery._connection := None;
  BaseQuery._ldap_attributes := None;
  BaseQuery._model := Some User;
  BaseQuery._open_directory := Some example_com
|}.

Definition staff : Instance :=
  BaseModel.__init__ Group
    [("cn", VList [VStr "staff"]);
     ("memberUid", VList [VStr "alice"; VStr "bob"]);
     ("apple-group-memberguid", VList [VStr "A1"; VStr "B2"])].

Definition nameless_user : Instance :=
  BaseModel.__init__ User [("uid", VList []); ("mail", VList [])].

(** A model class written without a docstring: its [__doc__] is None. *)
Definition Machine : Model := {|
  __name__ := "Machine";
  _query_cn := None;
  vars := [ ("__module__", MOther);
            ("__doc__", MNone);
            ("name", MAttr {| ldap_key := "cn"; allow_multiple := false |});
            ("__abstractmethods__", MOther);
            ("_abc_impl", MOther) ]
|}.

Definition staff_entry : Entry := {|
  entry_dn := "cn=staff,cn=groups,dc=example,dc=com";
  entry_attributes_as_dict :=
    [("cn", ["staff"]); ("memberUid", ["alice"; "bob"]);
     ("apple-group-memberguid", []); ("gidNumber", ["1025"])]
|}.

Definition bob : Entry := {|
  entry_dn := "uid=bob,cn=users,dc=example,dc=com";
  entry_attributes_as_dict :=
    [("uid", ["bob"]); ("mail", ["bob@example.com"; "robert@example.com"]);
     ("cn", ["Bob B"; "Robert B"]); ("shell", ["/bin/sh"])]
|}.

Definition alice_and_bob : Connection := {|
  conn_name := "alice-and-bob";
  search := fun _ _ _ => [sentinel; alice; bob]
|}.

(** A process in which the [n]-th connection is told apart by its name. *)
Definition numbered : BaseOpenDirectory.Env := {|
  BaseOpenDirectory.base_dn_from_url := fun _ => None;
  BaseOpenDirectory.new_connection := fun url auto_bind serial => {|
    conn_name := url +:+ "#" +:+ String.concat "" (replicate serial "i");
    search := fun _ _ _ => []
  |}
|}.

Definition local_directory : BaseOpenDirectory.t := {|
  BaseOpenDirectory.config := ∅
|}.

Definition in_request : BaseOpenDirectory.World := {|
  BaseOpenDirectory.top := Some None;
  BaseOpenDirectory.created := 0
|}.

Definition outside_request : BaseOpenDirectory.World := {|
  BaseOpenDirectory.top := None;
  BaseOpenDirectory.created := 0
|}.

(** ** Facts about dictionaries kept as item lists *)

Section DictFacts.
Context {A : Type}.
Implicit Types (items : list (string * A)) (key : string).

Lemma dict_get_Some_elem key items v :
  dict_get key items = Some v → (key, v) ∈ items.
Proof.
  unfold dict_get. induction items as [|[k a] items IH]; simpl; [done|].
  destruct (String.eqb_spec k key) as [->|Hne]; simpl.
  - intros [= ->]. left.
  - intros H. right. auto.
Qed.

Lemma dict_get_of_elem key items v :
  dict_like items → (key, v) ∈ items → dict_get key items = Some v.
Proof.
  unfold dict_like, dict_get.
  induction items as [|[k a] items IH]; simpl.
  - intros _ H. inversion H.
  - rewrite NoDup_cons. intros [Hk Hnd] Hin.
    apply elem_of_cons in Hin as [[= <- <-]|Hin].
    + by rewrite String.eqb_refl.
    + destruct (String.eqb_spec k key) as [->|Hne]; simpl; [|auto].
      exfalso. apply Hk, list_elem_of_fmap. by exists (key, v).
Qed.

Lemma dict_get_is_Some key items :
  key ∈ items.*1 → is_Some (dict_get key items).
Proof.
  unfold dict_get. induction items as [|[k a] items IH]; simpl.
  - intros H. inversion H.
  - intros Hin. destruct (String.eqb_spec k key) as [->|Hne]; simpl; [eauto|].
    apply elem_of_cons in Hin as [->|Hin]; [done|auto].
Qed.

Lemma dict_get_None key items :
  key ∉ items.*1 → dict_get key items = None.
Proof.
  intros Hnot. destruct (dict_get key items) as [v|] eqn:Hget; [|done].
  exfalso. apply Hnot, list_elem_of_fmap.
  exists (key, v). split; [done|]. by apply dict_get_Some_elem.
Qed.
End DictFacts.

(** ** Facts about [BaseModel] *)

Section ModelFacts.
Variable cls : Model.

Lemma ldap_attribute_map_elem name key :
  (name, key) ∈ BaseModel.ldap_attribute_map cls ↔
  ∃ a, (name, MAttr a) ∈ vars cls ∧ ldap_key a = key.
Proof.
  unfold BaseModel.ldap_attribute_map. rewrite list_elem_of_omap. split.
  - intros [[n [a| |]] [Hin Heq]]; simpl in *; [|done|done].
    injection Heq as <- <-. eauto.
  - intros (a & Hin & <-). by exists (name, MAttr a).
Qed.

(** A name mapped by [ldap_attribute_map] is an [Attribute] of the class. *)
Lemma mapped_name_is_attribute name :
  dict_like (vars cls) →
  name ∈ (BaseModel.ldap_attribute_map cls).*1 →
  ∃ a, dict_get name (vars cls) = Some (MAttr a) ∧
       dict_get name (BaseModel.ldap_attribute_map cls) = Some (ldap_key a).
Proof.
  intros Hdict Hin.
  destruct (dict_get_is_Some _ _ Hin) as [key Hkey].
  pose proof (dict_get_Some_elem _ _ _ Hkey) as Hvars.
  apply ldap_attribute_map_elem in Hvars as (a & Hvars & <-).
  exists a. split; [by apply dict_get_of_elem|done].
Qed.

Lemma attribute_is_mapped name a :
  dict_get name (vars cls) = Some (MAttr a) →
  name ∈ (BaseModel.ldap_attribute_map cls).*1.
Proof.
  intros Hget. apply list_elem_of_fmap. exists (name, ldap_key a).
  split; [done|]. apply ldap_attribute_map_elem.
  exists a. split; [by apply dict_get_Some_elem|done].
Qed.

(** [attribute_name_for] answers for every ldap key of the class, with a
    name that the class maps to that key. *)
Lemma attribute_name_for_ldap_key key :
  key ∈ BaseModel.ldap_keys cls →
  ∃ name, BaseModel.attribute_name_for cls key = Some name ∧
          (name, key) ∈ BaseModel.ldap_attribute_map cls.
Proof.
  unfold BaseModel.ldap_keys, BaseModel.attribute_name_for.
  induction (BaseModel.ldap_attribute_map cls) as [|[n k] m IH]; simpl.
  - intros H. inversion H.
  - intros Hin. destruct (String.eqb_spec k key) as [->|Hne]; simpl.
    + exists n. split; [done|left].
    + apply elem_of_cons in Hin as [->|Hin]; [done|].
      destruct (IH Hin) as (name & Hname & Hmem).
      exists name. split; [done|by right].
Qed.

(** [attribute_for_key], addressed by ldap key. *)
Lemma attribute_for_key_by_ldap_key key :
  dict_like (vars cls) →
  key ∈ BaseModel.ldap_keys cls →
  ∃ a, BaseModel.attribute_for_key cls key = Some (MAttr a) ∧ ldap_key a = key.
Proof.
  intros Hdict Hin. unfold BaseModel.attribute_for_key.
  rewrite bool_decide_eq_true_2 by done.
  destruct (attribute_name_for_ldap_key key Hin) as (name & -> & Hmem).
  apply ldap_attribute_map_elem in Hmem as (a & Hvars & Hkey).
  exists a. split; [|done].
  by rewrite (dict_get_of_elem _ _ _ Hdict Hvars).
Qed.

(** [attribute_for_key], addressed by an attribute name that is not also
    an ldap key. *)
Lemma attribute_for_key_by_name name :
  dict_like (vars cls) →
  name ∉ BaseModel.ldap_keys cls →
  name ∈ (BaseModel.ldap_attribute_map cls).*1 →
  ∃ a, BaseModel.attribute_for_key cls name = Some (MAttr a) ∧
       dict_get name (BaseModel.ldap_attribute_map cls) = Some (ldap_key a).
Proof.
  intros Hdict Hnot Hin. unfold BaseModel.attribute_for_key.
  rewrite bool_decide_eq_false_2 by done.
  destruct (mapped_name_is_attribute name Hdict Hin) as (a & Hget & Hmap).
  exists a. by rewrite Hget.
Qed.
End ModelFacts.

(** ** Resolving stored values *)

Section Resolve.
Variable self : Instance.

(** A mapped attribute name is read from the internal storage. *)
Lemma getattribute_of_attribute name a :
  dict_get name (vars (__class__ self)) = Some (MAttr a) →
  BaseModel.__getattribute__ self name = BaseModel._get_ldap_value self name.
Proof.
  intros Hget. unfold BaseModel.__getattribute__.
  rewrite bool_decide_eq_true_2; [done|].
  by eapply attribute_is_mapped.
Qed.

(** With [allow_multiple=True] the stored value is returned as it is. *)
Lemma get_ldap_value_multiple name a :
  dict_get name (vars (__class__ self)) = Some (MAttr a) →
  allow_multiple a = true →
  BaseModel._get_ldap_value self name =
    Ok (default VNone (_ldap_values self !! name)).
Proof.
  intros Hget Hmult. unfold BaseModel._get_ldap_value, BaseModel.member_allow_multiple.
  rewrite Hget, Hmult. simpl.
  by destruct (truthy _).
Qed.

(** Nothing stored: [None], whatever the multiplicity. *)
Lemma get_ldap_value_unset name :
  _ldap_values self !! name = None →
  BaseModel._get_ldap_value self name = Ok VNone.
Proof. intros Hnone. unfold BaseModel._get_ldap_value. by rewrite Hnone. Qed.
End Resolve.

(** C3, as amended: for an Attribute with allow_multiple=False, resolving a
    stored list returns its first element when the list is non-empty and
    the stored empty list itself (not None) when it is empty; with
    allow_multiple=True the stored list is returned unchanged, the empty
    one included; when nothing is stored for the attribute, resolving
    returns None.  Attribute access goes through the same resolution. *)
Theorem resolve_stored_sequence (self : Instance) (name : string)
        (a : Attribute) :
  dict_get name (vars (__class__ self)) = Some (MAttr a) →
  BaseModel.__getattribute__ self name = BaseModel._get_ldap_value self name ∧
  (∀ l, _ldap_values self !! name = Some (VList l) →
        BaseModel._get_ldap_value self name =
          Ok (match allow_multiple a, l with
              | false, x :: _ => x
              | _, _ => VList l
              end)) ∧
  (_ldap_values self !! name = None →
   BaseModel._get_ldap_value self name = Ok VNone).
Proof.
  intros Hget. split; [by eapply getattribute_of_attribute|]. split.
  - intros l Hstored.
    unfold BaseModel._get_ldap_value, BaseModel.member_allow_multiple.
    rewrite Hstored, Hget. simpl.
    destruct l as [|x l']; simpl.
    + by destruct (allow_multiple a).
    + by destruct (allow_multiple a).
  - apply get_ldap_value_unset.
Qed.

Lemma resolve_stored_sequence_witness :
  BaseModel._get_ldap_value nameless_user "username" = Ok (VList []) ∧
  BaseModel._get_ldap_value nameless_user "full_name" = Ok VNone.
Proof.
  split.
  - refine (proj1 (proj2 (resolve_stored_sequence nameless_user "username"
                            {| ldap_key := "uid"; allow_multiple := false |} _))
              [] _); reflexivity.
  - refine (proj2 (proj2 (resolve_stored_sequence nameless_user "full_name"
                            {| ldap_key := "cn"; allow_multiple := false |} _))
              _); reflexivity.
Defined.

(** C3 as stated fails: a single-valued attribute holding an empty list
    resolves to that empty list, not to None. *)
Lemma single_valued_empty_is_not_absent :
  dict_get "username" (vars User) =
    Some (MAttr {| ldap_key := "uid"; allow_multiple := false |}) ∧
  _ldap_values nameless_user !! "username" = Some (VList []) ∧
  BaseModel.__getattribute__ nameless_user "username" = Ok (VList []) ∧
  BaseModel.__getattribute__ nameless_user "username" ≠ Ok VNone.
Proof. repeat split; try reflexivity. discriminate. Qed.

(** ** Group membership *)

Lemma py_in_list (user : string) (l : list value) :
  ∃ b, py_in user (VList l) = Ok b ∧ (b = true ↔ VStr user ∈ l).
Proof.
  simpl. eexists. split; [reflexivity|].
  induction l as [|y l IH]; simpl.
  - split; [done|]. intros H. inversion H.
  - rewrite orb_true_iff, IH, elem_of_cons. apply or_iff_compat_r.
    destruct y; try (split; [done|intros [=]]).
    destruct (String.eqb_spec user s) as [->|Hne]; split; try done.
    intros [= ?]. done.
Qed.

Lemma group_getattribute_users (self : Instance) :
  __class__ self = Group →
  BaseModel.__getattribute__ self "users" =
    Ok (default VNone (_ldap_values self !! "users")).
Proof.
  intros Hcls.
  rewrite (getattribute_of_attribute self "users"
             {| ldap_key := "memberUid"; allow_multiple := true |})
    by (by rewrite Hcls).
  eapply get_ldap_value_multiple; [by rewrite Hcls|done].
Qed.

Lemma group_getattribute_member_ids (self : Instance) :
  __class__ self = Group →
  BaseModel.__getattribute__ self "member_ids" =
    Ok (default VNone (_ldap_values self !! "member_ids")).
Proof.
  intros Hcls.
  rewrite (getattribute_of_attribute self "member_ids"
             {| ldap_key := "apple-group-memberguid"; allow_multiple := true |})
    by (by rewrite Hcls).
  eapply get_ldap_value_multiple; [by rewrite Hcls|done].
Qed.

(** The membership test on one stored member list. *)
Lemma member_test (user : string) (stored : option value) (l : list value) :
  member_list stored = Some l →
  ∃ b, match default VNone stored with
       | VNone => Ok false
       | _ => py_in user (default VNone stored)
       end = Ok b ∧ (b = true ↔ VStr user ∈ l).
Proof.
  destruct stored as [[]|]; simpl; intros [= <-];
    try (exists false; split; [done|]; split; [done|]; intros H; inversion H).
  apply py_in_list.
Qed.

(** C8: for a Group whose member lists are lists or absent, has_user
    returns (without raising) True exactly when the identifier occurs in
    the users list or in the member_ids list; an absent list counts as a
    list without members. *)
Theorem has_user_iff (self : Instance) (user : string) (us ms : list value) :
  __class__ self = Group →
  member_list (_ldap_values self !! "users") = Some us →
  member_list (_ldap_values self !! "member_ids") = Some ms →
  ∃ b, has_user self user = Ok b ∧
       (b = true ↔ VStr user ∈ us ∨ VStr user ∈ ms).
Proof.
  intros Hcls Hus Hms. unfold has_user.
  rewrite group_getattribute_users, group_getattribute_member_ids by done.
  destruct (member_test user _ _ Hus) as (bu & Hbu & Hu).
  destruct (member_test user _ _ Hms) as (bm & Hbm & Hm).
  cbn [mbind res_bind]. rewrite Hbu. destruct bu; cbn [mbind res_bind].
  - exists true. split; [done|]. split; [|done]. intros _. left. by apply Hu.
  - rewrite Hbm. exists bm. split; [by destruct bm|].
    rewrite Hm. split; [by right|]. intros [Hin|Hin]; [|done].
    by apply Hu in Hin.
Qed.

Lemma has_user_iff_witness :
  ∃ b, has_user staff "B2" = Ok b ∧
       (b = true ↔ VStr "B2" ∈ [VStr "alice"; VStr "bob"] ∨
                   VStr "B2" ∈ [VStr "A1"; VStr "B2"]).
Proof.
  apply (has_user_iff staff "B2"); reflexivity.
Defined.

(** ** Running queries *)

(** Unfolds the sequencing of a method of a query, one step at a time. *)
Ltac run_method :=
  repeat (unfold mbind, mret, BaseQuery.M_bind, BaseQuery.M_ret,
                 BaseQuery.get, BaseQuery.lift, BaseQuery.raise;
          cbv beta iota).

Lemma has_values_false_iff (e : Entry) :
  BaseQuery.has_values e = false ↔ all_empty e.
Proof.
  unfold BaseQuery.has_values, all_empty.
  induction (entry_attributes_as_dict e) as [|[k l] kvs IH]; simpl.
  - split; [constructor|done].
  - rewrite orb_false_iff, IH, Forall_cons. simpl.
    apply and_iff_compat_r. by destruct l.
Qed.

Lemma filter_all_empty (es : list Entry) :
  Forall all_empty es → List.filter BaseQuery.has_values es = [].
Proof.
  induction 1 as [|e es He _ IH]; simpl; [done|].
  apply has_values_false_iff in He. by rewrite He.
Qed.

Lemma connection_ctx_with_connection (c : Connection) (q : BaseQuery.t) :
  BaseQuery.connection_ctx (with_connection c q) = Some c.
Proof. reflexivity. Qed.

(** [_query] with a connection argument: the connection is stored, then
    searched. *)
Lemma query_with_connection (c : Connection) (q : BaseQuery.t) :
  BaseQuery._query (VConnection c) q =
    (Ok (List.filter BaseQuery.has_values (searched c (with_connection c q))),
     with_connection c q).
Proof. reflexivity. Qed.

(** [_query] without a connection argument leaves the query as it is. *)
Lemma query_without_argument (q : BaseQuery.t) :
  BaseQuery._query VNone q =
    (Ok (match BaseQuery.connection_ctx q with
         | Some c => List.filter BaseQuery.has_values (searched c q)
         | None => []
         end), q).
Proof.
  unfold BaseQuery._query, searched. run_method.
  by destruct (BaseQuery.connection_ctx q).
Qed.

(** What [first] and [all] do with the outcome of [_query]. *)
Lemma first_of_query (connection : value) (convert : bool)
      (q q' : BaseQuery.t) (entries : list Entry) :
  BaseQuery._query connection q = (Ok entries, q') →
  BaseQuery.first connection convert q =
    match convert, BaseQuery.model q' with
    | true, Some cls =>
        match BaseModel.from_entry cls (head entries) with
        | Ok i => (Ok (Converted i), q')
        | Raise e => (Raise e, q')
        end
    | _, _ =>
        (Ok (match head entries with
             | Some e => RawEntry e
             | None => Absent
             end), q')
    end.
Proof.
  intros Hq. unfold BaseQuery.first.
  run_method. rewrite Hq.
  run_method.
  destruct convert; [|done].
  destruct (BaseQuery.model q'); [|done].
  run_method.
  by destruct (BaseModel.from_entry _ _).
Qed.

Lemma all_of_query_raw (connection : value) (q q' : BaseQuery.t)
      (entries : list Entry) :
  BaseQuery._query connection q = (Ok entries, q') →
  BaseQuery.all connection false q = (Ok (RawEntry <$> entries), q').
Proof.
  intros Hq. unfold BaseQuery.all.
  run_method. rewrite Hq.
  run_method.
  by destruct (0 <? length entries).
Qed.

Lemma all_of_empty_query (connection : value) (convert : bool)
      (q q' : BaseQuery.t) :
  BaseQuery._query connection q = (Ok [], q') →
  BaseQuery.all connection convert q = (Ok [], q').
Proof.
  intros Hq. unfold BaseQuery.all.
  run_method. by rewrite Hq.
Qed.

Lemma all_of_raising_query (connection : value) (convert : bool)
      (q q' : BaseQuery.t) (e : exn) :
  BaseQuery._query connection q = (Raise e, q') →
  BaseQuery.all connection convert q = (Raise e, q').
Proof.
  intros Hq. unfold BaseQuery.all.
  run_method. by rewrite Hq.
Qed.

(** Neither [first] nor [all] touches the query after [_query] has run. *)
Lemma first_state (connection : value) (convert : bool) (q : BaseQuery.t) :
  snd (BaseQuery.first connection convert q) = snd (BaseQuery._query connection q).
Proof.
  destruct (BaseQuery._query connection q) as [[entries|e] q'] eqn:Hq.
  - rewrite (first_of_query _ _ _ _ _ Hq).
    destruct convert; [|done]. destruct (BaseQuery.model q'); [|done].
    by destruct (BaseModel.from_entry _ _).
  - unfold BaseQuery.first. run_method. by rewrite Hq.
Qed.

Lemma all_state (connection : value) (convert : bool) (q : BaseQuery.t) :
  snd (BaseQuery.all connection convert q) = snd (BaseQuery._query connection q).
Proof.
  destruct (BaseQuery._query connection q) as [[entries|e] q'] eqn:Hq.
  - unfold BaseQuery.all. run_method. rewrite Hq.
    run_method.
    destruct (0 <? length entries); [|done].
    destruct convert; [|done]. destruct (BaseQuery.model q'); [|done].
    run_method.
    by destruct (res_map _ _).
  - by rewrite (all_of_raising_query _ _ _ _ _ Hq).
Qed.

(** C1, on the code: when the search yields no entry and a model is
    bound, first(connection, convert=True) hands None to from_entry and
    raises AttributeError instead of returning None. *)
Theorem first_miss_with_model_raises (connection : value)
        (q q' : BaseQuery.t) (cls : Model) :
  BaseQuery._query connection q = (Ok [], q') →
  BaseQuery.model q' = Some cls →
  BaseQuery.first connection true q = (Raise AttributeError, q').
Proof.
  intros Hq Hmodel. rewrite (first_of_query _ _ _ _ _ Hq), Hmodel. done.
Qed.

Lemma first_miss_with_model_raises_witness :
  BaseQuery.first (VConnection no_match) true user_query =
    (Raise AttributeError, with_connection no_match user_query).
Proof.
  apply (first_miss_with_model_raises (VConnection no_match) user_query
           (with_connection no_match user_query) User); reflexivity.
Defined.

(** Without a model, or without conversion, a miss is reported as None. *)
Lemma first_miss_without_conversion (connection : value) (convert : bool)
      (q q' : BaseQuery.t) :
  BaseQuery._query connection q = (Ok [], q') →
  convert = false ∨ BaseQuery.model q' = None →
  BaseQuery.first connection convert q = (Ok Absent, q').
Proof.
  intros Hq Hor. rewrite (first_of_query _ _ _ _ _ Hq).
  destruct Hor as [->| ->]; [done|by destruct convert].
Qed.

(** C2, as amended: the entry generator behind both all and first drops
    every returned entry whose attribute values are all empty sequences
    and keeps the others in order; all(convert=False) returns the entries
    kept and first(convert=False) the first entry kept, None when nothing
    is kept; so a search returning only such entries yields an empty
    tuple from all. *)
Theorem query_drops_empty_entries (q : BaseQuery.t) (c : Connection) :
  (∀ e, BaseQuery.has_values e = false ↔ all_empty e) ∧
  BaseQuery._query (VConnection c) q =
    (Ok (List.filter BaseQuery.has_values (searched c (with_connection c q))),
     with_connection c q) ∧
  BaseQuery.all (VConnection c) false q =
    (Ok (RawEntry <$>
           List.filter BaseQuery.has_values (searched c (with_connection c q))),
     with_connection c q) ∧
  BaseQuery.first (VConnection c) false q =
    (Ok (match List.filter BaseQuery.has_values
                 (searched c (with_connection c q)) with
         | e :: _ => RawEntry e
         | [] => Absent
         end),
     with_connection c q) ∧
  (Forall all_empty (searched c (with_connection c q)) →
   ∀ convert,
     BaseQuery.all (VConnection c) convert q = (Ok [], with_connection c q)).
Proof.
  pose proof (query_with_connection c q) as Hq.
  split; [apply has_values_false_iff|].
  split; [done|].
  split; [by apply all_of_query_raw|].
  split.
  - rewrite (first_of_query _ _ _ _ _ Hq). simpl.
    by destruct (List.filter _ _).
  - intros Hempty convert. apply all_of_empty_query. rewrite Hq.
    by rewrite (filter_all_empty _ Hempty).
Qed.

Lemma query_drops_empty_entries_witness :
  BaseQuery.all (VConnection sentinel_only) true user_query =
    (Ok [], with_connection sentinel_only user_query).
Proof.
  refine (proj2 (proj2 (proj2 (proj2
            (query_drops_empty_entries user_query sentinel_only)))) _ true).
  repeat constructor.
Defined.

(** C2 as stated fails: first filters too.  On a search whose only entry
    is the all-empty sentinel, first(convert=False) returns None, not the
    sentinel. *)
Lemma first_filters_sentinel :
  searched sentinel_only (with_connection sentinel_only BaseQuery.blank) =
    [sentinel] ∧
  all_empty sentinel ∧
  fst (BaseQuery.first (VConnection sentinel_only) false BaseQuery.blank) =
    Ok Absent ∧
  fst (BaseQuery.first (VConnection sentinel_only) false BaseQuery.blank) ≠
    Ok (RawEntry sentinel).
Proof.
  split; [reflexivity|]. split; [repeat constructor|].
  split; [reflexivity|discriminate].
Qed.

(** C6: with no explicit connection, no connection argument and no open
    directory that provides one, all() returns the empty tuple and leaves
    the query as it is; nothing is raised. *)
Theorem all_without_connection (q : BaseQuery.t) (convert : bool) :
  BaseQuery._connection q = None →
  (∀ od, BaseQuery._open_directory q = Some od →
         OpenDirectoryABC.connection od = None ∧
         OpenDirectoryABC.connection_ctx od = None) →
  BaseQuery.all VNone convert q = (Ok [], q).
Proof.
  intros Hconn Hod. apply all_of_empty_query.
  rewrite query_without_argument.
  unfold BaseQuery.connection_ctx, BaseQuery.connection, BaseQuery.open_directory.
  rewrite Hconn.
  destruct (BaseQuery._open_directory q) as [od|]; [|done].
  destruct (Hod od eq_refl) as [-> ->]. done.
Qed.

Lemma all_without_connection_witness :
  BaseQuery.all VNone true user_query = (Ok [], user_query).
Proof.
  apply (all_without_connection user_query true); [reflexivity|].
  intros od [= <-]. split; reflexivity.
Defined.

(** C9: a connection passed to first() or all() is stored on the query:
    after the call it is the query's connection, later calls without an
    argument behave as if it were passed again, and they leave it in
    place. *)
Theorem connection_argument_is_stored (q : BaseQuery.t) (c : Connection)
        (convert : bool) :
  snd (BaseQuery.first (VConnection c) convert q) = with_connection c q ∧
  snd (BaseQuery.all (VConnection c) convert q) = with_connection c q ∧
  BaseQuery._connection (with_connection c q) = Some c ∧
  BaseQuery.connection (with_connection c q) = Some c ∧
  (∀ convert',
     BaseQuery.first VNone convert' (with_connection c q) =
       BaseQuery.first (VConnection c) convert' q ∧
     BaseQuery.all VNone convert' (with_connection c q) =
       BaseQuery.all (VConnection c) convert' q).
Proof.
  split; [by rewrite first_state, query_with_connection|].
  split; [by rewrite all_state, query_with_connection|].
  split; [done|]. split; [done|].
  intros convert'.
  assert (BaseQuery._query VNone (with_connection c q) =
          BaseQuery._query (VConnection c) q) as Hsame.
  { by rewrite query_without_argument, query_with_connection,
       connection_ctx_with_connection. }
  unfold BaseQuery.first, BaseQuery.all. run_method.
  by rewrite Hsame.
Qed.

(** The stored connection replaces what the query had: the call is not a
    one-call override. *)
Example connection_argument_changes_query :
  snd (BaseQuery.all (VConnection no_match) true user_query) ≠ user_query.
Proof. discriminate. Qed.

(** ** Resolution of the search parameters *)

(** C5: a query bound to the User model and to an open directory with base
    dn 'dc=example,dc=com', with no search base, filter or attribute list
    stored, searches 'cn=users,dc=example,dc=com' with the match-all
    filter on objectClass for exactly the ldap keys User declares; and a
    search base that was set is the effective one on any query, whatever
    its model and open directory. *)
Theorem user_query_defaults (q : BaseQuery.t) (od : OpenDirectory) :
  BaseQuery._model q = Some User →
  BaseQuery._open_directory q = Some od →
  OpenDirectoryABC.base_dn od = "dc=example,dc=com" →
  BaseQuery._search_base q = None →
  BaseQuery._search_filter q = None →
  BaseQuery._ldap_attributes q = None →
  BaseQuery.search_base q = Some "cn=users,dc=example,dc=com" ∧
  BaseQuery.search_filter q = "(objectClass=*)" ∧
  BaseQuery.ldap_attributes q = Some (BaseModel.ldap_keys User) ∧
  BaseModel.ldap_keys User = ["apple-generateduid"; "uid"; "mail"; "cn"] ∧
  (∀ (q' : BaseQuery.t) (base : string),
     BaseQuery.search_base (snd (BaseQuery.search_base_setter (Some base) q')) =
       Some base).
Proof.
  intros Hmodel Hod Hbase Hsb Hsf Hattrs.
  unfold BaseQuery.search_base, BaseQuery.search_filter,
    BaseQuery.ldap_attributes, BaseQuery.model, BaseQuery.open_directory.
  rewrite Hmodel, Hod, Hsb, Hsf, Hattrs. simpl. rewrite Hbase.
  repeat split; reflexivity.
Qed.

Lemma user_query_defaults_witness :
  BaseQuery.search_base user_query = Some "cn=users,dc=example,dc=com" ∧
  BaseQuery.search_filter user_query = "(objectClass=*)" ∧
  BaseQuery.ldap_attributes user_query = Some (BaseModel.ldap_keys User).
Proof.
  destruct (user_query_defaults user_query example_com
              eq_refl eq_refl eq_refl eq_refl eq_refl eq_refl)
    as (Hbase & Hfilter & Hattrs & _).
  exact (conj Hbase (conj Hfilter Hattrs)).
Defined.

(** The other branches of the search base: the open directory alone, and
    a model whose [query_cn] already carries its 'cn='. *)
Example search_base_without_model :
  BaseQuery.search_base
    (snd (BaseQuery.open_directory_setter (VOpenDirectory example_com)
            BaseQuery.blank)) = Some "dc=example,dc=com".
Proof. reflexivity. Qed.

Example search_base_with_explicit_cn :
  BaseQuery.search_base
    (snd (BaseQuery.model_setter
            (VClass {| __name__ := "Computer";
                       _query_cn := Some "cn=machines";
                       vars := [] |})
            user_query)) = Some "cn=machines,dc=example,dc=com".
Proof. reflexivity. Qed.

(** ** Assignments *)

(** C7, as amended: assigning a truthy value that is neither a model class
    nor a model instance to model, or a truthy value that is not a
    connection to connection, or a value other than None that is not an
    open directory to open_directory, raises TypeError at the assignment
    and stores nothing; assigning None to any of the three raises
    nothing. *)
Theorem invalid_assignment_raises (q : BaseQuery.t) (v : value) :
  (truthy v = true → is_model v = false →
   BaseQuery.model_setter v q = (Raise TypeError, q)) ∧
  (truthy v = true → is_connection v = false →
   BaseQuery.connection_setter v q = (Raise TypeError, q)) ∧
  (v ≠ VNone → is_open_directory v = false →
   BaseQuery.open_directory_setter v q = (Raise TypeError, q)) ∧
  BaseQuery.model_setter VNone q = (Ok tt, q) ∧
  BaseQuery.connection_setter VNone q = (Ok tt, q) ∧
  BaseQuery.open_directory_setter VNone q = (Ok tt, q).
Proof.
  repeat split.
  - intros Htruthy Hmodel. unfold BaseQuery.model_setter. rewrite Htruthy.
    by destruct v.
  - intros Htruthy Hconn. unfold BaseQuery.connection_setter. rewrite Htruthy.
    by destruct v.
  - intros Hnone Hod. by destruct v.
Qed.

Lemma invalid_assignment_raises_witness :
  BaseQuery.model_setter (VStr "User") user_query =
    (Raise TypeError, user_query) ∧
  BaseQuery.connection_setter (VStr "User") user_query =
    (Raise TypeError, user_query) ∧
  BaseQuery.open_directory_setter (VStr "User") user_query =
    (Raise TypeError, user_query).
Proof.
  destruct (invalid_assignment_raises user_query (VStr "User"))
    as (Hmodel & Hconn & Hod & _).
  split; [apply Hmodel; reflexivity|].
  split; [apply Hconn; reflexivity|].
  apply Hod; [discriminate|reflexivity].
Defined.

(** C7 as stated fails: values that are not models, connections or open
    directories are assigned without any TypeError when they are falsy
    (None everywhere; also 0 or the empty string for model and
    connection). *)
Lemma falsy_assignment_is_silent :
  is_model VNone = false ∧
  BaseQuery.model_setter VNone BaseQuery.blank = (Ok tt, BaseQuery.blank) ∧
  is_connection VNone = false ∧
  BaseQuery.connection_setter VNone BaseQuery.blank = (Ok tt, BaseQuery.blank) ∧
  is_open_directory VNone = false ∧
  BaseQuery.open_directory_setter VNone BaseQuery.blank =
    (Ok tt, BaseQuery.blank) ∧
  is_model (VInt 0) = false ∧
  BaseQuery.model_setter (VInt 0) BaseQuery.blank = (Ok tt, BaseQuery.blank) ∧
  is_connection (VStr "") = false ∧
  BaseQuery.connection_setter (VStr "") BaseQuery.blank =
    (Ok tt, BaseQuery.blank).
Proof. repeat split. Qed.

(** One assignment never removes what is stored. *)
Lemma assign_stored_stays (a : assignment) (q : BaseQuery.t) :
  stored_stays q (snd (assign a q)).
Proof.
  unfold stored_stays.
  destruct a as [[s|]|[s|]|v|v|v|v]; simpl; try done.
  - unfold BaseQuery.connection_setter.
    destruct (truthy v); [|done]. destruct v; simpl; eauto 10.
  - unfold BaseQuery.ldap_attributes_setter.
    destruct v; simpl; eauto 10.
  - unfold BaseQuery.model_setter.
    destruct (truthy v); [|done]. destruct v; simpl; eauto 10.
  - unfold BaseQuery.open_directory_setter.
    destruct v; simpl; eauto 10.
Qed.

Lemma stored_stays_trans (q1 q2 q3 : BaseQuery.t) :
  stored_stays q1 q2 → stored_stays q2 q3 → stored_stays q1 q3.
Proof.
  intros (Hb & Hf & Hc & Hm & Ha) (Hb' & Hf' & Hc' & Hm' & Ha').
  repeat split; auto.
Qed.

Lemma assign_all_stored_stays (ops : list assignment) (q : BaseQuery.t) :
  stored_stays q (assign_all ops q).
Proof.
  revert q. induction ops as [|a ops IH]; intros q.
  - repeat split; auto.
  - simpl. eapply stored_stays_trans; [apply assign_stored_stays|apply IH].
Qed.

(** C10: assigning None to search_base, search_filter, connection, model
    or ldap_attributes leaves the query as it was; and whatever was stored
    under one of them is still stored after any run of assignments to the
    properties of the query, so the getter never returns to its
    fallback. *)
Theorem assigning_none_is_noop (q : BaseQuery.t) (ops : list assignment) :
  BaseQuery.search_base_setter None q = (Ok tt, q) ∧
  BaseQuery.search_filter_setter None q = (Ok tt, q) ∧
  BaseQuery.connection_setter VNone q = (Ok tt, q) ∧
  BaseQuery.model_setter VNone q = (Ok tt, q) ∧
  BaseQuery.ldap_attributes_setter VNone q = (Ok tt, q) ∧
  stored_stays q (assign_all ops q) ∧
  (is_Some (BaseQuery._search_base q) →
   BaseQuery.search_base (assign_all ops q) =
     BaseQuery._search_base (assign_all ops q)) ∧
  (is_Some (BaseQuery._search_filter q) →
   Some (BaseQuery.search_filter (assign_all ops q)) =
     BaseQuery._search_filter (assign_all ops q)) ∧
  (is_Some (BaseQuery._connection q) →
   BaseQuery.connection (assign_all ops q) =
     BaseQuery._connection (assign_all ops q)) ∧
  (is_Some (BaseQuery._ldap_attributes q) →
   BaseQuery.ldap_attributes (assign_all ops q) =
     BaseQuery._ldap_attributes (assign_all ops q)).
Proof.
  pose proof (assign_all_stored_stays ops q) as Hstays.
  do 5 (split; [done|]). split; [done|].
  destruct Hstays as (Hsb & Hsf & Hc & _ & Ha).
  repeat split.
  - intros [s Hs]%Hsb. unfold BaseQuery.search_base. by rewrite Hs.
  - intros [s Hs]%Hsf. unfold BaseQuery.search_filter. by rewrite Hs.
  - intros [c Hc']%Hc. unfold BaseQuery.connection. by rewrite Hc'.
  - intros [l Hl]%Ha. unfold BaseQuery.ldap_attributes. by rewrite Hl.
Qed.

Lemma assigning_none_is_noop_witness :
  BaseQuery.search_base
    (assign_all [SetSearchBase None; SetSearchFilter None; SetModel VNone]
       (snd (BaseQuery.search_base_setter (Some "dc=example,dc=com") user_query)))
  = Some "dc=example,dc=com".
Proof.
  destruct (assigning_none_is_noop
              (snd (BaseQuery.search_base_setter (Some "dc=example,dc=com") user_query))
              [SetSearchBase None; SetSearchFilter None; SetModel VNone])
    as (_ & _ & _ & _ & _ & _ & Hbase & _).
  rewrite Hbase; [reflexivity|]. eexists. reflexivity.
Defined.

(** ** Filters from criteria *)

Section FilterFacts.
Variable q : BaseQuery.t.
Hypothesis Hnamespace : model_namespace_ok q.

(** The key of one criterion, as [_parse_filter_kwargs] translates it. *)
Lemma translated_key (key : string) :
  known_key q key →
  match BaseQuery.model q with
  | Some cls =>
      match BaseModel.attribute_for_key cls key with
      | Some (MAttr a) => Ok (ldap_key a)
      | _ => Raise AttributeError
      end
  | None => Ok key
  end = Ok (external_key q key).
Proof.
  unfold known_key, external_key, model_namespace_ok in *.
  destruct (BaseQuery.model q) as [cls|]; [|done].
  intros Hknown. case_bool_decide as Hkey.
  - destruct (attribute_for_key_by_ldap_key cls key Hnamespace Hkey)
      as (a & -> & ->). done.
  - destruct Hknown as [Hname|Hin]; [|done].
    destruct (attribute_for_key_by_name cls key Hnamespace Hkey Hname)
      as (a & -> & ->). done.
Qed.

Lemma parse_filter_kwargs_known (kwargs : list (string * string)) :
  Forall (known_key q) kwargs.*1 →
  Query._parse_filter_kwargs q kwargs = Ok (criterion q <$> kwargs).
Proof.
  unfold Query._parse_filter_kwargs.
  induction kwargs as [|[key v] kwargs IH]; simpl; [done|].
  rewrite Forall_cons. intros [Hkey Hrest].
  rewrite (translated_key key Hkey), (IH Hrest). done.
Qed.
End FilterFacts.

(** [filter] without a positional string stores what the keyword
    criteria give. *)
Lemma filter_of_kwargs (q : BaseQuery.t) (kv : string * string)
      (kwargs : list (string * string)) (parsed : list string) :
  Query._parse_filter_kwargs q (kv :: kwargs) = Ok parsed →
  Query.filter [] (kv :: kwargs) q =
    match parsed with
    | [] => (Ok tt, q)
    | [p] => (Ok tt, with_search_filter p q)
    | _ => (Ok tt, with_search_filter ("(&" +:+ String.concat "" parsed +:+ ")") q)
    end.
Proof.
  intros Hparsed.
  unfold Query.filter, Query._filter_string_from_kwargs. run_method.
  cbn [Query.first_str BaseQuery.only_str omap head length Nat.ltb Nat.leb].
  rewrite Hparsed. unfold res_bind.
  by destruct parsed as [|p1 [|p2 parsed]].
Qed.

(** C4: each criterion key is translated through the bound model (an
    attribute name to its ldap key, an ldap key to itself) and used as it
    is when no model is bound; one criterion gives '(key=value)', two or
    more give '(&(key1=value1)(key2=value2)...)' in the order in which the
    criteria were supplied; filter, called with the criteria as keyword
    arguments, stores that string as the search filter. *)
Theorem filter_from_criteria (q : BaseQuery.t) (kwargs : list (string * string)) :
  model_namespace_ok q →
  Forall (known_key q) kwargs.*1 →
  (∀ kv, kwargs = [kv] →
     Query._filter_string_from_kwargs q kwargs = Ok (Some (criterion q kv))) ∧
  (2 ≤ length kwargs →
     Query._filter_string_from_kwargs q kwargs =
       Ok (Some ("(&" +:+ String.concat "" (criterion q <$> kwargs) +:+ ")"))) ∧
  (0 < length kwargs →
     ∃ s, Query._filter_string_from_kwargs q kwargs = Ok (Some s) ∧
          Query.filter [] kwargs q = (Ok tt, with_search_filter s q) ∧
          BaseQuery.search_filter (with_search_filter s q) = s).
Proof.
  intros Hnamespace Hknown.
  pose proof (parse_filter_kwargs_known q Hnamespace kwargs Hknown) as Hparsed.
  unfold Query._filter_string_from_kwargs. rewrite Hparsed.
  split; [|split].
  - by intros kv ->.
  - destruct kwargs as [|kv1 [|kv2 kwargs]]; simpl; [lia|lia|done].
  - intros Hlen.
    destruct kwargs as [|kv1 kwargs]; [simpl in Hlen; lia|].
    destruct kwargs as [|kv2 kwargs]; eexists; (split; [reflexivity|]);
      (split; [|reflexivity]);
      rewrite (filter_of_kwargs q _ _ (criterion q <$> _) Hparsed); reflexivity.
Qed.

Lemma filter_from_criteria_witness :
  Query._filter_string_from_kwargs user_query
    [("username", "alice"); ("full_name", "Alice A")] =
    Ok (Some "(&(uid=alice)(cn=Alice A))").
Proof.
  assert (model_namespace_ok user_query) as Hnamespace
    by (apply (bool_decide_unpack _); vm_compute; exact I).
  assert (Forall (known_key user_query)
            [("username", "alice"); ("full_name", "Alice A")].*1) as Hknown
    by (repeat constructor; left; apply (bool_decide_unpack _);
        vm_compute; exact I).
  destruct (filter_from_criteria user_query
              [("username", "alice"); ("full_name", "Alice A")]
              Hnamespace Hknown) as (_ & Hmany & _).
  rewrite Hmany; [reflexivity|simpl; lia].
Defined.

(** The documented uses of [filter]. *)
Example filter_by_attribute_name :
  BaseQuery.search_filter (snd (Query.filter [] [("username", "alice")] user_query))
  = "(uid=alice)".
Proof. reflexivity. Qed.

Example filter_by_ldap_key :
  BaseQuery.search_filter (snd (Query.filter [] [("uid", "anotheruser")] user_query))
  = "(uid=anotheruser)".
Proof. reflexivity. Qed.

Example filter_by_string :
  BaseQuery.search_filter
    (snd (Query.filter [VStr "(cn=Test User)"] [("uid", "ignored")] user_query))
  = "(cn=Test User)".
Proof. reflexivity. Qed.

Example filter_without_model :
  Query._filter_string_from_kwargs BaseQuery.blank
    [("username", "alice"); ("full_name", "Alice A")] =
    Ok (Some "(&(username=alice)(full_name=Alice A))").
Proof. reflexivity. Qed.

(** A key the bound model does not know has no [Attribute] to read the
    ldap key from. *)
Example filter_by_unknown_key :
  Query.filter [] [("shoe_size", "42")] user_query =
    (Raise AttributeError, user_query).
Proof. reflexivity. Qed.

(** ** Addressing attributes by name and by ldap key *)

Section Addressing.
Variable cls : Model.

Lemma attribute_name_for_sound key name :
  BaseModel.attribute_name_for cls key = Some name →
  (name, key) ∈ BaseModel.ldap_attribute_map cls.
Proof.
  unfold BaseModel.attribute_name_for.
  induction (BaseModel.ldap_attribute_map cls) as [|[n k] m IH]; simpl; [done|].
  destruct (String.eqb_spec k key) as [->|Hne]; simpl.
  - intros [= ->]. left.
  - intros H. right. auto.
Qed.

Lemma attribute_name_for_miss key :
  BaseModel.attribute_name_for cls key = None ↔ key ∉ BaseModel.ldap_keys cls.
Proof.
  split.
  - intros Hnone Hin.
    destruct (attribute_name_for_ldap_key cls key Hin) as (name & Hname & _).
    congruence.
  - intros Hnot.
    destruct (BaseModel.attribute_name_for cls key) as [name|] eqn:Hname; [|done].
    exfalso. apply Hnot, list_elem_of_fmap.
    exists (name, key). split; [done|]. by apply attribute_name_for_sound.
Qed.

Lemma attribute_name_for_unique key name :
  NoDup (BaseModel.ldap_keys cls) →
  (name, key) ∈ BaseModel.ldap_attribute_map cls →
  BaseModel.attribute_name_for cls key = Some name.
Proof.
  unfold BaseModel.ldap_keys, BaseModel.attribute_name_for.
  induction (BaseModel.ldap_attribute_map cls) as [|[n k] m IH]; simpl.
  - intros _ H. inversion H.
  - rewrite NoDup_cons. intros [Hk Hnd] Hin.
    apply elem_of_cons in Hin as [[= <- <-]|Hin].
    + by rewrite String.eqb_refl.
    + destruct (String.eqb_spec k key) as [->|Hne]; simpl; [|auto].
      exfalso. apply Hk, list_elem_of_fmap. by exists (name, key).
Qed.

(** An attribute of the class is mapped under its name to its ldap key. *)
Lemma attribute_in_map name a :
  dict_get name (vars cls) = Some (MAttr a) →
  (name, ldap_key a) ∈ BaseModel.ldap_attribute_map cls.
Proof.
  intros Hget. apply ldap_attribute_map_elem. exists a.
  split; [by apply dict_get_Some_elem|done].
Qed.

(** With a dictionary as namespace, a name is mapped to one ldap key. *)
Lemma mapped_key_is_own name a key :
  dict_like (vars cls) →
  dict_get name (vars cls) = Some (MAttr a) →
  (name, key) ∈ BaseModel.ldap_attribute_map cls →
  key = ldap_key a.
Proof.
  intros Hdict Hget Hin.
  apply ldap_attribute_map_elem in Hin as (b & Hb & <-).
  apply (dict_get_of_elem _ _ _ Hdict) in Hb. congruence.
Qed.
End Addressing.

(** X1: [attribute_name_for] inverts [ldap_attribute_map]: it answers None
    exactly for a key that is no ldap key of the class; a name it answers
    is mapped to the key; and when no two attributes share an ldap key,
    it answers the name of every mapped pair. *)
Theorem attribute_name_for_inverts_map (cls : Model) (key : string) :
  (BaseModel.attribute_name_for cls key = None ↔
   key ∉ BaseModel.ldap_keys cls) ∧
  (∀ name, BaseModel.attribute_name_for cls key = Some name →
           dict_get name (BaseModel.ldap_attribute_map cls) ≠ None ∧
           (name, key) ∈ BaseModel.ldap_attribute_map cls) ∧
  (NoDup (BaseModel.ldap_keys cls) →
   ∀ name, (name, key) ∈ BaseModel.ldap_attribute_map cls →
           BaseModel.attribute_name_for cls key = Some name).
Proof.
  split; [apply attribute_name_for_miss|]. split.
  - intros name Hname. apply attribute_name_for_sound in Hname as Hin.
    split; [|done].
    assert (is_Some (dict_get name (BaseModel.ldap_attribute_map cls))) as [k Hk].
    { apply dict_get_is_Some, list_elem_of_fmap. by exists (name, key). }
    by rewrite Hk.
  - intros Hnodup name Hin. by apply attribute_name_for_unique.
Qed.

Lemma attribute_name_for_inverts_map_witness :
  BaseModel.attribute_name_for Group "memberUid" = Some "users".
Proof.
  refine (proj2 (proj2 (attribute_name_for_inverts_map Group "memberUid"))
            _ "users" _).
  - apply (bool_decide_unpack _). vm_compute. exact I.
  - apply (bool_decide_unpack _). vm_compute. exact I.
Defined.

(** X2: [attribute_for_key] answers None, without raising, exactly for a key
    that is no ldap key of the class and under which the namespace of the
    class holds nothing, or nothing but None (as under [__doc__] in a
    class without docstring). *)
Theorem attribute_for_key_miss (cls : Model) (key : string) :
  dict_like (vars cls) →
  BaseModel.attribute_for_key cls key = None ↔
  (key ∉ BaseModel.ldap_keys cls) ∧ ∀ m, (key, m) ∈ vars cls → m = MNone.
Proof.
  intros Hdict.
  destruct (decide (key ∈ BaseModel.ldap_keys cls)) as [Hkey|Hkey].
  - destruct (attribute_for_key_by_ldap_key cls key Hdict Hkey) as (a & -> & _).
    split; [done|]. by intros [? _].
  - unfold BaseModel.attribute_for_key. rewrite bool_decide_eq_false_2 by done.
    destruct (dict_get key (vars cls)) as [m|] eqn:Hget.
    + pose proof (dict_get_Some_elem _ _ _ Hget) as Hin.
      destruct m as [a| |].
      * split; [done|]. intros [_ Hnone]. by specialize (Hnone _ Hin).
      * split; [done|]. intros [_ Hnone]. by specialize (Hnone _ Hin).
      * split; [|done]. intros _. split; [done|]. intros m Hm.
        apply (dict_get_of_elem _ _ _ Hdict) in Hm. congruence.
    + split; [|done]. intros _. split; [done|]. intros m Hm.
      apply (dict_get_of_elem _ _ _ Hdict) in Hm. congruence.
Qed.

Lemma attribute_for_key_miss_witness :
  BaseModel.attribute_for_key Machine "__doc__" = None ↔
  ("__doc__" ∉ BaseModel.ldap_keys Machine) ∧
  ∀ m, ("__doc__", m) ∈ vars Machine → m = MNone.
Proof.
  apply (attribute_for_key_miss Machine "__doc__").
  apply (bool_decide_unpack _). vm_compute. exact I.
Defined.

(** X3: The name of an attribute and its ldap key address the same Attribute:
    in a class whose namespace is a dictionary and whose ldap keys are
    pairwise different, [attribute_for_key] returns the attribute itself
    for its name (when the name is not an ldap key as well) and for its
    ldap key. *)
Theorem attribute_for_key_both_ways (cls : Model) (name : string) (a : Attribute) :
  dict_like (vars cls) →
  NoDup (BaseModel.ldap_keys cls) →
  dict_get name (vars cls) = Some (MAttr a) →
  name ∉ BaseModel.ldap_keys cls →
  BaseModel.attribute_for_key cls name = Some (MAttr a) ∧
  BaseModel.attribute_for_key cls (ldap_key a) = Some (MAttr a).
Proof.
  intros Hdict Hnodup Hget Hname. unfold BaseModel.attribute_for_key. split.
  - rewrite bool_decide_eq_false_2 by done. by rewrite Hget.
  - pose proof (attribute_in_map cls name a Hget) as Hin.
    rewrite bool_decide_eq_true_2.
    + rewrite (attribute_name_for_unique cls _ _ Hnodup Hin). by rewrite Hget.
    + apply list_elem_of_fmap. by exists (name, ldap_key a).
Qed.

Lemma attribute_for_key_both_ways_witness :
  BaseModel.attribute_for_key User "email" =
    Some (MAttr {| ldap_key := "mail"; allow_multiple := true |}) ∧
  BaseModel.attribute_for_key User "mail" =
    Some (MAttr {| ldap_key := "mail"; allow_multiple := true |}).
Proof.
  apply (attribute_for_key_both_ways User "email"
           {| ldap_key := "mail"; allow_multiple := true |}).
  - apply (bool_decide_unpack _). vm_compute. exact I.
  - apply (bool_decide_unpack _). vm_compute. exact I.
  - reflexivity.
  - apply (bool_decide_unpack _). vm_compute. exact I.
Defined.

(** ** Writing and reading attributes of an instance *)

Section Storage.
Variable self : Instance.
Variables (key : string) (v : value).

Lemma setattr_class :
  __class__ (BaseModel.__setattr__ self key v) = __class__ self.
Proof.
  unfold BaseModel.__setattr__.
  repeat case_bool_decide; try done.
  by destruct (BaseModel.attribute_name_for _ _).
Qed.

Lemma setattr_by_name :
  key ∈ (BaseModel.ldap_attribute_map (__class__ self)).*1 →
  _ldap_values (BaseModel.__setattr__ self key v) = <[key := v]> (_ldap_values self) ∧
  __dict__ (BaseModel.__setattr__ self key v) = __dict__ self.
Proof.
  intros Hin. unfold BaseModel.__setattr__.
  by rewrite bool_decide_eq_true_2.
Qed.

Lemma setattr_by_ldap_key name :
  key ∉ (BaseModel.ldap_attribute_map (__class__ self)).*1 →
  BaseModel.attribute_name_for (__class__ self) key = Some name →
  _ldap_values (BaseModel.__setattr__ self key v) = <[name := v]> (_ldap_values self) ∧
  __dict__ (BaseModel.__setattr__ self key v) = __dict__ self.
Proof.
  intros Hnot Hname. unfold BaseModel.__setattr__.
  rewrite bool_decide_eq_false_2 by done.
  rewrite bool_decide_eq_true_2, Hname; [done|].
  apply list_elem_of_fmap. exists (name, key).
  split; [done|]. by apply attribute_name_for_sound.
Qed.

Lemma setattr_unmapped :
  key ∉ (BaseModel.ldap_attribute_map (__class__ self)).*1 →
  key ∉ BaseModel.ldap_keys (__class__ self) →
  _ldap_values (BaseModel.__setattr__ self key v) = _ldap_values self ∧
  __dict__ (BaseModel.__setattr__ self key v) = <[key := v]> (__dict__ self).
Proof.
  intros Hname Hkey. unfold BaseModel.__setattr__.
  by rewrite !bool_decide_eq_false_2.
Qed.

(** A write leaves every slot alone that it does not address. *)
Lemma setattr_other_slot name :
  key ≠ name →
  BaseModel.attribute_name_for (__class__ self) key ≠ Some name →
  _ldap_values (BaseModel.__setattr__ self key v) !! name = _ldap_values self !! name.
Proof.
  intros Hne Hslot.
  destruct (decide (key ∈ (BaseModel.ldap_attribute_map (__class__ self)).*1))
    as [Hin|Hnot].
  - rewrite (proj1 (setattr_by_name Hin)). by rewrite lookup_insert_ne.
  - destruct (BaseModel.attribute_name_for (__class__ self) key) as [n|] eqn:Hn.
    + rewrite (proj1 (setattr_by_ldap_key n Hnot Hn)).
      rewrite lookup_insert_ne; [done|congruence].
    + apply attribute_name_for_miss in Hn.
      by rewrite (proj1 (setattr_unmapped Hnot Hn)).
Qed.
End Storage.

Lemma attribute_reads_resolved (self : Instance) (name : string) (a : Attribute) :
  dict_get name (vars (__class__ self)) = Some (MAttr a) →
  BaseModel._get_ldap_value self name =
    Ok (resolved a (default VNone (_ldap_values self !! name))) ∧
  BaseModel.__getattribute__ self name =
    Ok (resolved a (default VNone (_ldap_values self !! name))).
Proof.
  intros Hget.
  assert (BaseModel._get_ldap_value self name =
          Ok (resolved a (default VNone (_ldap_values self !! name)))) as Hval.
  { unfold BaseModel._get_ldap_value, BaseModel.member_allow_multiple, resolved.
    rewrite Hget.
    generalize (default VNone (_ldap_values self !! name)). intros v.
    destruct (allow_multiple a), (truthy v) eqn:Htruthy; simpl; try done.
    - by destruct v as [| | | |[|x l]| | | | |].
    - by destruct v as [| | | |[|x l]| | | | |]. }
  split; [done|].
  by rewrite (getattribute_of_attribute self name a Hget).
Qed.

(** X4: Reading a mapped attribute: whatever is stored (a list, a plain
    value, or nothing, which reads as None), [_get_ldap_value] and the
    attribute access by name return the first item of a non-empty list
    when the attribute is single-valued and the stored value itself in
    every other case; they never raise. *)
Theorem read_attribute_resolved (self : Instance) (name : string) (a : Attribute) :
  dict_get name (vars (__class__ self)) = Some (MAttr a) →
  BaseModel._get_ldap_value self name =
    Ok (resolved a (default VNone (_ldap_values self !! name))) ∧
  BaseModel.__getattribute__ self name =
    Ok (resolved a (default VNone (_ldap_values self !! name))).
Proof. exact (attribute_reads_resolved self name a). Qed.

Lemma read_attribute_resolved_witness :
  BaseModel.__getattribute__ staff "group_name" = Ok (VStr "staff").
Proof.
  refine (proj2 (read_attribute_resolved staff "group_name"
                   {| ldap_key := "cn"; allow_multiple := false |} _)).
  reflexivity.
Defined.

(** X5: Reading by ldap key is reading by name: for an attribute whose ldap
    key is not itself an attribute name, in a class with a dictionary as
    namespace and pairwise different ldap keys, the access by ldap key
    returns what the access by name returns. *)
Theorem read_by_ldap_key (self : Instance) (name : string) (a : Attribute) :
  NoDup (BaseModel.ldap_keys (__class__ self)) →
  dict_get name (vars (__class__ self)) = Some (MAttr a) →
  ldap_key a ∉ (BaseModel.ldap_attribute_map (__class__ self)).*1 →
  BaseModel.__getattribute__ self (ldap_key a) =
    BaseModel.__getattribute__ self name.
Proof.
  intros Hnodup Hget Hkey.
  pose proof (attribute_in_map _ name a Hget) as Hin.
  rewrite (getattribute_of_attribute self name a Hget).
  unfold BaseModel.__getattribute__.
  rewrite bool_decide_eq_false_2 by done.
  rewrite bool_decide_eq_true_2.
  - by rewrite (attribute_name_for_unique _ _ _ Hnodup Hin).
  - apply list_elem_of_fmap. by exists (name, ldap_key a).
Qed.

Lemma read_by_ldap_key_witness :
  BaseModel.__getattribute__ staff "memberUid" =
    BaseModel.__getattribute__ staff "users".
Proof.
  apply (read_by_ldap_key staff "users"
           {| ldap_key := "memberUid"; allow_multiple := true |}).
  - apply (bool_decide_unpack _). vm_compute. exact I.
  - reflexivity.
  - apply (bool_decide_unpack _). vm_compute. exact I.
Defined.

(** X6: Write then read: a value assigned to an attribute under its name or
    under its ldap key is stored under the name, and reading the name
    afterwards gives the value as the attribute resolves it. *)
Theorem write_then_read (self : Instance) (name : string) (a : Attribute)
        (v : value) :
  NoDup (BaseModel.ldap_keys (__class__ self)) →
  dict_get name (vars (__class__ self)) = Some (MAttr a) →
  ldap_key a ∉ (BaseModel.ldap_attribute_map (__class__ self)).*1 →
  BaseModel.__getattribute__ (BaseModel.__setattr__ self name v) name =
    Ok (resolved a v) ∧
  BaseModel.__getattribute__ (BaseModel.__setattr__ self (ldap_key a) v) name =
    Ok (resolved a v) ∧
  BaseModel.__setattr__ self (ldap_key a) v = BaseModel.__setattr__ self name v.
Proof.
  intros Hnodup Hget Hkey.
  pose proof (attribute_in_map _ name a Hget) as Hin.
  pose proof (attribute_is_mapped _ name a Hget) as Hname.
  pose proof (attribute_name_for_unique _ _ _ Hnodup Hin) as Hslot.
  assert (BaseModel.__setattr__ self (ldap_key a) v =
          BaseModel.__setattr__ self name v) as Hsame.
  { unfold BaseModel.__setattr__.
    rewrite (bool_decide_eq_false_2 _ Hkey).
    rewrite (bool_decide_eq_true_2 (name ∈ _) Hname).
    rewrite bool_decide_eq_true_2, Hslot; [done|].
    apply list_elem_of_fmap. by exists (name, ldap_key a). }
  split; [|split; [rewrite Hsame|done]].
  all: destruct (attribute_reads_resolved (BaseModel.__setattr__ self name v) name a)
         as [_ ->]; [by rewrite setattr_class|];
       rewrite (proj1 (setattr_by_name self name v Hname));
       by rewrite lookup_insert_eq.
Qed.

Lemma write_then_read_witness :
  BaseModel.__getattribute__
    (BaseModel.__setattr__ nameless_user "uid" (VList [VStr "carol"; VStr "caz"]))
    "username" = Ok (VStr "carol").
Proof.
  refine (proj1 (proj2 (write_then_read nameless_user "username"
                          {| ldap_key := "uid"; allow_multiple := false |}
                          (VList [VStr "carol"; VStr "caz"]) _ _ _))).
  - apply (bool_decide_unpack _). vm_compute. exact I.
  - reflexivity.
  - apply (bool_decide_unpack _). vm_compute. exact I.
Defined.

Lemma unbound_not_mapped (cls : Model) (key : string) :
  key ∉ (vars cls).*1 → key ∉ (BaseModel.ldap_attribute_map cls).*1.
Proof.
  intros Hvars Hin. apply Hvars.
  apply list_elem_of_fmap in Hin as ([n k] & -> & Hin).
  apply ldap_attribute_map_elem in Hin as (a & Hin & _).
  apply list_elem_of_fmap. by exists (n, MAttr a).
Qed.

(** X7: A write changes one attribute only: after a write under a plain
    key, any attribute that the key does not address (the key is neither
    its name nor an ldap key its name is found for) reads as it read
    before. *)
Theorem write_leaves_others (self : Instance) (key name : string) (a : Attribute)
        (v : value) :
  unreserved (__class__ self) →
  plain_key (__class__ self) key →
  dict_get name (vars (__class__ self)) = Some (MAttr a) →
  key ≠ name →
  BaseModel.attribute_name_for (__class__ self) key ≠ Some name →
  BaseModel.__getattribute__ (BaseModel.__setattr__ self key v) name =
    BaseModel.__getattribute__ self name.
Proof.
  intros _ _ Hget Hne Hslot.
  destruct (attribute_reads_resolved (BaseModel.__setattr__ self key v) name a)
    as [_ ->]; [by rewrite setattr_class|].
  destruct (attribute_reads_resolved self name a Hget) as [_ ->].
  by rewrite setattr_other_slot.
Qed.

Lemma write_leaves_others_witness :
  BaseModel.__getattribute__
    (BaseModel.__setattr__ staff "shell" (VList [VStr "/bin/sh"])) "users" =
  BaseModel.__getattribute__ staff "users".
Proof.
  apply (write_leaves_others staff "shell" "users"
           {| ldap_key := "memberUid"; allow_multiple := true |}).
  - unfold unreserved. apply (bool_decide_unpack _). vm_compute. exact I.
  - unfold plain_key. apply (bool_decide_unpack _). vm_compute. exact I.
  - reflexivity.
  - discriminate.
  - discriminate.
Defined.

(** X8: A key that is not reserved and that the class binds neither as a
    name of its namespace nor as an ldap key becomes an ordinary instance
    attribute: the internal storage is untouched and the attribute reads
    back as the value assigned. *)
Theorem write_unmapped_key (self : Instance) (key : string) (v : value) :
  unreserved (__class__ self) →
  key ∉ reserved_names →
  key ∉ (vars (__class__ self)).*1 →
  key ∉ BaseModel.ldap_keys (__class__ self) →
  _ldap_values (BaseModel.__setattr__ self key v) = _ldap_values self ∧
  BaseModel.__getattribute__ (BaseModel.__setattr__ self key v) key = Ok v.
Proof.
  intros _ _ Hvars Hkey.
  pose proof (unbound_not_mapped _ _ Hvars) as Hname.
  destruct (setattr_unmapped self key v Hname Hkey) as [Hvals Hdict].
  split; [done|].
  unfold BaseModel.__getattribute__, BaseModel.object_getattribute.
  rewrite setattr_class, !bool_decide_eq_false_2 by done.
  by rewrite Hdict, lookup_insert_eq.
Qed.

Lemma write_unmapped_key_witness :
  _ldap_values (BaseModel.__setattr__ nameless_user "shell" (VStr "/bin/sh")) =
    _ldap_values nameless_user ∧
  BaseModel.__getattribute__
    (BaseModel.__setattr__ nameless_user "shell" (VStr "/bin/sh")) "shell" =
    Ok (VStr "/bin/sh").
Proof.
  apply (write_unmapped_key nameless_user "shell" (VStr "/bin/sh")).
  - unfold unreserved. apply (bool_decide_unpack _). vm_compute. exact I.
  - apply (bool_decide_unpack _). vm_compute. exact I.
  - apply (bool_decide_unpack _). vm_compute. exact I.
  - apply (bool_decide_unpack _). vm_compute. exact I.
Defined.

(** ** Building instances *)

Lemma dict_get_fmap {A B} (f : A → B) (key : string) (items : list (string * A)) :
  dict_get key ((fun kv => (fst kv, f (snd kv))) <$> items) =
    f <$> dict_get key items.
Proof.
  unfold dict_get. induction items as [|[k x] items IH]; simpl; [done|].
  by destruct (String.eqb k key).
Qed.

Lemma entry_kwargs_keys (e : Entry) :
  (BaseModel.entry_kwargs e).*1 = (entry_attributes_as_dict e).*1.
Proof.
  unfold BaseModel.entry_kwargs. rewrite <- list_fmap_compose.
  by apply list_fmap_ext.
Qed.

Section Building.

Lemma setattrs_class kwargs self :
  __class__ (setattrs kwargs self) = __class__ self.
Proof.
  revert self. induction kwargs as [|[k v] kwargs IH]; intros self; simpl; [done|].
  by rewrite IH, setattr_class.
Qed.

(** What the storage holds after a run of writes was there before or
    was written by one of them, under an attribute name. *)
Lemma setattrs_origin kwargs self n v :
  _ldap_values (setattrs kwargs self) !! n = Some v →
  _ldap_values self !! n = Some v ∨
  (n ∈ (BaseModel.ldap_attribute_map (__class__ self)).*1 ∧
   ∃ key, (key, v) ∈ kwargs ∧
          (key = n ∨ BaseModel.attribute_name_for (__class__ self) key = Some n)).
Proof.
  revert self. induction kwargs as [|[k v0] kwargs IH]; intros self; simpl.
  { by left. }
  intros Hlook.
  apply IH in Hlook as [Hlook|(Hn & key & Hin & Hkey)]; rewrite ?setattr_class in *;
    [|right; split; [done|]; exists key; split; [by right|done]].
  destruct (decide (k ∈ (BaseModel.ldap_attribute_map (__class__ self)).*1)) as [Hk|Hk].
  - rewrite (proj1 (setattr_by_name self k v0 Hk)) in Hlook.
    destruct (decide (k = n)) as [->|Hne].
    + rewrite lookup_insert_eq in Hlook. injection Hlook as ->.
      right. split; [done|]. exists n. split; [left|by left].
    + rewrite lookup_insert_ne in Hlook by done. by left.
  - destruct (BaseModel.attribute_name_for (__class__ self) k) as [name|] eqn:Hname.
    + rewrite (proj1 (setattr_by_ldap_key self k v0 name Hk Hname)) in Hlook.
      destruct (decide (name = n)) as [->|Hne].
      * rewrite lookup_insert_eq in Hlook. injection Hlook as ->.
        right. split.
        -- apply list_elem_of_fmap. exists (n, k).
           split; [done|]. by apply attribute_name_for_sound.
        -- exists k. split; [left|by right].
      * rewrite lookup_insert_ne in Hlook by done. by left.
    + apply attribute_name_for_miss in Hname.
      rewrite (proj1 (setattr_unmapped self k v0 Hk Hname)) in Hlook.
      by left.
Qed.

(** Entry keys written one after the other: the slot of an attribute ends
    up with the value given for its ldap key, or stays as it was. *)
Lemma setattrs_by_ldap_keys kwargs self name a :
  dict_like (vars (__class__ self)) →
  NoDup (BaseModel.ldap_keys (__class__ self)) →
  dict_get name (vars (__class__ self)) = Some (MAttr a) →
  dict_like kwargs →
  (∀ key, key ∈ kwargs.*1 →
          key ∉ (BaseModel.ldap_attribute_map (__class__ self)).*1) →
  _ldap_values (setattrs kwargs self) !! name =
    match dict_get (ldap_key a) kwargs with
    | Some v => Some v
    | None => _ldap_values self !! name
    end.
Proof.
  revert self. induction kwargs as [|[k v] kwargs IH];
    intros self Hdict Hnodup Hget Hkw Hkeys; [done|].
  pose proof (attribute_in_map _ name a Hget) as Hin.
  unfold dict_like in Hkw. simpl in Hkw. apply NoDup_cons in Hkw as [Hk Hkw].
  assert (k ∉ (BaseModel.ldap_attribute_map (__class__ self)).*1) as Hk_name.
  { apply Hkeys. left. }
  simpl. rewrite IH; rewrite ?setattr_class; try done;
    [|intros key Hkey; apply Hkeys; by right].
  unfold dict_get at 2. simpl.
  destruct (String.eqb_spec k (ldap_key a)) as [->|Hne]; simpl.
  - rewrite (dict_get_None _ _ Hk).
    rewrite (proj1 (setattr_by_ldap_key self (ldap_key a) v name Hk_name
                      (attribute_name_for_unique _ _ _ Hnodup Hin))).
    by rewrite lookup_insert_eq.
  - fold (dict_get (ldap_key a) kwargs).
    rewrite setattr_other_slot; [done| |].
    + intros ->. apply Hk_name. by eapply attribute_is_mapped.
    + intros Hslot%attribute_name_for_sound.
      by apply (mapped_key_is_own _ name a k Hdict Hget) in Hslot.
Qed.
End Building.

Lemma init_stores_origin (cls : Model) (kwargs : list (string * value))
      (n : string) (v : value) :
  _ldap_values (BaseModel.__init__ cls kwargs) !! n = Some v →
  ∃ key, (key, v) ∈ kwargs ∧
         (key = n ∨ BaseModel.attribute_name_for cls key = Some n).
Proof.
  unfold BaseModel.__init__.
  change (fold_left _ ?kw ?x) with (setattrs kw x). intros Hlook.
  by apply setattrs_origin in Hlook as [Hlook|[_ Hlook]].
Qed.

(** X9: The internal storage of an instance built from keyword arguments
    with plain keys holds values under attribute names of its class only,
    and each value held was given in the keyword arguments under that
    name or under an ldap key the name is found for. *)
Theorem init_stores_under_attribute_names (cls : Model)
        (kwargs : list (string * value)) (n : string) (v : value) :
  unreserved cls →
  Forall (plain_key cls) kwargs.*1 →
  _ldap_values (BaseModel.__init__ cls kwargs) !! n = Some v →
  __class__ (BaseModel.__init__ cls kwargs) = cls ∧
  n ∈ (BaseModel.ldap_attribute_map cls).*1 ∧
  ∃ key, (key, v) ∈ kwargs ∧
         (key = n ∨ BaseModel.attribute_name_for cls key = Some n).
Proof.
  unfold BaseModel.__init__.
  change (fold_left _ ?kw ?x) with (setattrs kw x). intros _ _ Hlook.
  split; [by rewrite setattrs_class|].
  by apply setattrs_origin in Hlook as [Hlook|Hlook].
Qed.

Lemma init_stores_under_attribute_names_witness :
  __class__ staff = Group ∧
  "users" ∈ (BaseModel.ldap_attribute_map Group).*1 ∧
  ∃ key, (key, VList [VStr "alice"; VStr "bob"]) ∈
           [("cn", VList [VStr "staff"]);
            ("memberUid", VList [VStr "alice"; VStr "bob"]);
            ("apple-group-memberguid", VList [VStr "A1"; VStr "B2"])] ∧
         (key = "users" ∨ BaseModel.attribute_name_for Group key = Some "users").
Proof.
  apply (init_stores_under_attribute_names Group
           [("cn", VList [VStr "staff"]);
            ("memberUid", VList [VStr "alice"; VStr "bob"]);
            ("apple-group-memberguid", VList [VStr "A1"; VStr "B2"])]
           "users" (VList [VStr "alice"; VStr "bob"])).
  - unfold unreserved. apply (bool_decide_unpack _). vm_compute. exact I.
  - repeat (constructor;
            [unfold plain_key; apply (bool_decide_unpack _); vm_compute; exact I|]).
    constructor.
  - reflexivity.
Defined.

(** X10: Conversion of an entry: for a class with a dictionary as namespace
    and pairwise different ldap keys that binds no reserved name, and an
    entry with plain keys none of which is an attribute name, [from_entry]
    succeeds and every attribute of the instance reads as the resolved
    value list the entry gives for its ldap key, or as None when the
    entry has no such key. *)
Theorem from_entry_reads_entry (cls : Model) (e : Entry) (name : string)
        (a : Attribute) :
  dict_like (vars cls) →
  NoDup (BaseModel.ldap_keys cls) →
  unreserved cls →
  dict_like (entry_attributes_as_dict e) →
  plain_entry cls e →
  (∀ key, key ∈ (entry_attributes_as_dict e).*1 →
          key ∉ (BaseModel.ldap_attribute_map cls).*1) →
  dict_get name (vars cls) = Some (MAttr a) →
  ∃ i, BaseModel.from_entry cls (Some e) = Ok i ∧
       __class__ i = cls ∧
       BaseModel.__getattribute__ i name =
         Ok (resolved a
               (default VNone
                  (entry_value <$>
                     dict_get (ldap_key a) (entry_attributes_as_dict e)))).
Proof.
  intros Hdict Hnodup _ Hentry _ Hkeys Hget.
  exists (BaseModel.__init__ cls (BaseModel.entry_kwargs e)).
  split; [done|]. unfold BaseModel.__init__.
  change (fold_left _ ?kw ?x) with (setattrs kw x).
  split; [by rewrite setattrs_class|].
  destruct (attribute_reads_resolved
              (setattrs (BaseModel.entry_kwargs e)
                 {| __class__ := cls; _ldap_values := ∅; __dict__ := ∅ |}) name a)
    as [_ ->]; [by rewrite setattrs_class|].
  rewrite (setattrs_by_ldap_keys (BaseModel.entry_kwargs e)
             {| __class__ := cls; _ldap_values := ∅; __dict__ := ∅ |}
             name a Hdict Hnodup Hget).
  - unfold BaseModel.entry_kwargs. rewrite (dict_get_fmap (fun vals => VList (VStr <$> vals))).
    simpl. rewrite lookup_empty.
    by destruct (dict_get (ldap_key a) (entry_attributes_as_dict e)).
  - unfold dict_like. by rewrite entry_kwargs_keys.
  - intros key. rewrite entry_kwargs_keys. apply Hkeys.
Qed.

Lemma from_entry_reads_entry_witness :
  ∃ i, BaseModel.from_entry User (Some bob) = Ok i ∧
       __class__ i = User ∧
       BaseModel.__getattribute__ i "full_name" = Ok (VStr "Bob B").
Proof.
  apply (from_entry_reads_entry User bob "full_name"
           {| ldap_key := "cn"; allow_multiple := false |}).
  - apply (bool_decide_unpack _). vm_compute. exact I.
  - apply (bool_decide_unpack _). vm_compute. exact I.
  - unfold unreserved. apply (bool_decide_unpack _). vm_compute. exact I.
  - apply (bool_decide_unpack _). vm_compute. exact I.
  - unfold plain_entry.
    repeat (constructor;
            [unfold plain_key; apply (bool_decide_unpack _); vm_compute; exact I|]).
    constructor.
  - apply Forall_forall. apply (bool_decide_unpack _). vm_compute. exact I.
  - reflexivity.
Defined.

(** ** More on the search parameters *)

Lemma append_not_empty (s t : string) : t ≠ "" → s +:+ t ≠ "".
Proof. destruct s; simpl; [done|discriminate]. Qed.

(** X12: [query_cn] never returns the empty string: a [_query_cn] that is
    not empty is returned as it is; without a [_query_cn], or with an
    empty one, the result is the lower-cased class name followed by 's'
    (the lowering being that of [str.lower] for an ASCII class name). *)
Theorem query_cn_never_empty (cls : Model) :
  BaseModel.query_cn cls ≠ "" ∧
  (∀ cn, _query_cn cls = Some cn → cn ≠ "" → BaseModel.query_cn cls = cn) ∧
  (is_ascii (__name__ cls) = true →
   _query_cn cls = None ∨ _query_cn cls = Some "" →
   BaseModel.query_cn cls = lower (__name__ cls) +:+ "s").
Proof.
  unfold BaseModel.query_cn. split; [|split].
  - destruct (_query_cn cls) as [cn|]; [|by apply append_not_empty].
    destruct (String.eqb_spec cn "") as [->|Hne]; [|done].
    by apply append_not_empty.
  - intros cn -> Hne. by destruct (String.eqb_spec cn "").
  - by intros _ [->| ->].
Qed.

Lemma query_cn_never_empty_witness :
  BaseModel.query_cn {| __name__ := "Computer";
                        _query_cn := Some "cn=machines";
                        vars := [("_query_cn", MOther)] |} = "cn=machines" ∧
  BaseModel.query_cn Group = "groups".
Proof.
  split.
  - apply (proj1 (proj2 (query_cn_never_empty
             {| __name__ := "Computer";
                _query_cn := Some "cn=machines";
                vars := [("_query_cn", MOther)] |})) "cn=machines");
      [reflexivity|discriminate].
  - apply (proj2 (proj2 (query_cn_never_empty Group)));
      [reflexivity|by left].
Defined.

(** X13: The search base is None exactly when neither a search base nor an
    open directory is stored on the query; a model alone gives none. *)
Theorem search_base_absent_iff (q : BaseQuery.t) :
  BaseQuery.search_base q = None ↔
  BaseQuery._search_base q = None ∧ BaseQuery._open_directory q = None.
Proof.
  unfold BaseQuery.search_base, BaseQuery.open_directory, BaseQuery.model.
  destruct (BaseQuery._search_base q) as [s|]; [by split; [|intros []]|].
  destruct (BaseQuery._open_directory q) as [od|],
           (BaseQuery._model q) as [cls|]; simpl;
    try (split; [done|by intros []]); try done.
  destruct (negb _); split; try done; by intros [].
Qed.



(** X15: [connection_ctx] yields None exactly when no connection is stored on
    the query and its open directory, if it has one, has neither a shared
    connection nor one to yield; a stored connection is what it yields,
    before anything the open directory offers. *)
Theorem connection_ctx_absent_iff (q : BaseQuery.t) :
  (BaseQuery.connection_ctx q = None ↔
   BaseQuery._connection q = None ∧
   ∀ od, BaseQuery._open_directory q = Some od →
         OpenDirectoryABC.connection od = None ∧
         OpenDirectoryABC.connection_ctx od = None) ∧
  (∀ c, BaseQuery._connection q = Some c → BaseQuery.connection_ctx q = Some c).
Proof.
  unfold BaseQuery.connection_ctx, BaseQuery.connection, BaseQuery.open_directory.
  split.
  - destruct (BaseQuery._connection q) as [c|]; [by split; [|intros []]|].
    destruct (BaseQuery._open_directory q) as [od|].
    + destruct (OpenDirectoryABC.connection od) as [c|] eqn:Hc.
      * split; [done|]. intros [_ Hod]. destruct (Hod od eq_refl). congruence.
      * split.
        -- intros Hctx. split; [done|]. by intros ? [= <-].
        -- intros [_ Hod]. by destruct (Hod od eq_refl).
    + split; [|done]. intros _. split; [done|]. by intros.
  - by intros c ->.
Qed.

(** ** More on running queries *)

Lemma res_map_total {A B} (f : A → B) (xs : list A) :
  res_map (fun x => Ok (f x)) xs = Ok (f <$> xs).
Proof. induction xs as [|x xs IH]; simpl; [done|]. by rewrite IH. Qed.

Lemma all_of_query_converted (connection : value) (q q' : BaseQuery.t)
        (entries : list Entry) (cls : Model) :
  BaseQuery._query connection q = (Ok entries, q') →
  BaseQuery.model q' = Some cls →
  BaseQuery.all connection true q =
    (Ok ((fun e => Converted (BaseModel.__init__ cls (BaseModel.entry_kwargs e)))
           <$> entries), q').
Proof.
  intros Hq Hmodel. unfold BaseQuery.all. run_method. rewrite Hq.
  destruct entries as [|e entries]; [done|].
  cbn [length Nat.ltb Nat.leb]. rewrite Hmodel.
  unfold BaseModel.from_entry. rewrite res_map_total.
  unfold res_bind. by rewrite <- list_fmap_compose.
Qed.

(** X16: With a model bound that binds no reserved name, and a generator
    that yields entries with plain keys only, all() converts every entry
    yielded, in order, and no conversion raises: the result has one
    instance of the model per entry. *)
Theorem all_converts_every_entry (connection : value) (q q' : BaseQuery.t)
        (entries : list Entry) (cls : Model) :
  BaseQuery._query connection q = (Ok entries, q') →
  BaseQuery.model q' = Some cls →
  unreserved cls →
  Forall (plain_entry cls) entries →
  BaseQuery.all connection true q =
    (Ok ((fun e => Converted (BaseModel.__init__ cls (BaseModel.entry_kwargs e)))
           <$> entries), q').
Proof.
  intros Hq Hmodel _ _. exact (all_of_query_converted connection q q' entries cls Hq Hmodel).
Qed.

Lemma all_converts_every_entry_witness :
  BaseQuery.all (VConnection alice_and_bob) true user_query =
    (Ok [Converted (BaseModel.__init__ User (BaseModel.entry_kwargs alice));
         Converted (BaseModel.__init__ User (BaseModel.entry_kwargs bob))],
     with_connection alice_and_bob user_query).
Proof.
  apply (all_converts_every_entry (VConnection alice_and_bob) user_query
           (with_connection alice_and_bob user_query) [alice; bob] User).
  - reflexivity.
  - reflexivity.
  - unfold unreserved. apply (bool_decide_unpack _). vm_compute. exact I.
  - repeat (constructor;
            [unfold plain_entry;
             repeat (constructor;
                     [unfold plain_key; apply (bool_decide_unpack _);
                      vm_compute; exact I|]);
             constructor|]).
    constructor.
Defined.

(** X17: first() agrees with all(): whenever all() returns a non-empty tuple,
    first() with the same arguments returns its first item and leaves the
    query in the same state. *)
Theorem first_is_head_of_all (connection : value) (convert : bool)
        (q q' : BaseQuery.t) (x : found) (xs : list found) :
  BaseQuery.all connection convert q = (Ok (x :: xs), q') →
  BaseQuery.first connection convert q = (Ok x, q').
Proof.
  destruct (BaseQuery._query connection q) as [[entries|e] q0] eqn:Hq.
  - rewrite (first_of_query _ _ _ _ _ Hq).
    destruct convert, (BaseQuery.model q0) as [cls|] eqn:Hmodel.
    + rewrite (all_of_query_converted _ _ _ _ _ Hq Hmodel).
      destruct entries as [|e entries]; [done|]. simpl. by intros [= <- _ <-].
    + unfold BaseQuery.all. run_method. rewrite Hq, Hmodel.
      destruct entries as [|e entries]; [done|]. simpl. by intros [= <- _ <-].
    + rewrite (all_of_query_raw _ _ _ _ Hq).
      destruct entries as [|e entries]; [done|]. simpl. by intros [= <- _ <-].
    + rewrite (all_of_query_raw _ _ _ _ Hq).
      destruct entries as [|e entries]; [done|]. simpl. by intros [= <- _ <-].
  - by rewrite (all_of_raising_query _ _ _ _ _ Hq).
Qed.

Lemma first_is_head_of_all_witness :
  BaseQuery.first (VConnection alice_and_bob) true user_query =
    (Ok (Converted (BaseModel.__init__ User (BaseModel.entry_kwargs alice))),
     with_connection alice_and_bob user_query).
Proof.
  apply (first_is_head_of_all (VConnection alice_and_bob) true user_query
           (with_connection alice_and_bob user_query) _
           [Converted (BaseModel.__init__ User (BaseModel.entry_kwargs bob))]).
  reflexivity.
Defined.

(** X18: A connection argument that is truthy but no connection makes first()
    and all() raise TypeError before anything is searched, and leaves the
    query as it was. *)
Theorem invalid_connection_argument (v : value) (convert : bool) (q : BaseQuery.t) :
  truthy v = true →
  is_connection v = false →
  BaseQuery.first v convert q = (Raise TypeError, q) ∧
  BaseQuery.all v convert q = (Raise TypeError, q).
Proof.
  intros Htruthy Hconn.
  assert (BaseQuery._query v q = (Raise TypeError, q)) as Hq.
  { unfold BaseQuery._query, BaseQuery.connection_setter. run_method.
    rewrite Htruthy. by destruct v. }
  split.
  - unfold BaseQuery.first. run_method. by rewrite Hq.
  - by apply all_of_raising_query.
Qed.

Lemma invalid_connection_argument_witness :
  BaseQuery.first (VStr "ldaps://example.com") true user_query =
    (Raise TypeError, user_query) ∧
  BaseQuery.all (VStr "ldaps://example.com") true user_query =
    (Raise TypeError, user_query).
Proof.
  apply (invalid_connection_argument (VStr "ldaps://example.com") true user_query);
    reflexivity.
Defined.

(** X19: A falsy connection argument (0, False, the empty string, an empty
    list) is passed over in silence: first() and all() behave exactly as
    without the argument. *)
Theorem falsy_connection_argument (v : value) (convert : bool) (q : BaseQuery.t) :
  truthy v = false →
  BaseQuery.first v convert q = BaseQuery.first VNone convert q ∧
  BaseQuery.all v convert q = BaseQuery.all VNone convert q.
Proof.
  intros Hfalsy.
  assert (BaseQuery._query v q = BaseQuery._query VNone q) as Hq.
  { unfold BaseQuery._query, BaseQuery.connection_setter. run_method.
    rewrite Hfalsy. by destruct v. }
  unfold BaseQuery.first, BaseQuery.all. run_method. by rewrite Hq.
Qed.

Lemma falsy_connection_argument_witness :
  BaseQuery.first (VInt 0) false user_query =
    BaseQuery.first VNone false user_query ∧
  BaseQuery.all (VInt 0) false user_query = BaseQuery.all VNone false user_query.
Proof.
  apply (falsy_connection_argument (VInt 0) false user_query). reflexivity.
Defined.

(** ** More on assignments and filters *)

Lemma only_str_elem (l : list value) (s : string) :
  s ∈ BaseQuery.only_str l ↔ VStr s ∈ l.
Proof.
  unfold BaseQuery.only_str. rewrite list_elem_of_omap. split.
  - intros [v [Hin Hs]]. destruct v; try done. by injection Hs as ->.
  - intros Hin. by exists (VStr s).
Qed.

(** X20: The attribute list of a query: assigning one string is assigning the
    list that holds just that string; of an assigned list exactly the
    strings are kept, in order; and what was assigned is what the getter
    returns from then on, whatever the model. *)
Theorem ldap_attributes_assignment (q : BaseQuery.t) (s : string) (l : list value) :
  BaseQuery.ldap_attributes_setter (VStr s) q =
    BaseQuery.ldap_attributes_setter (VList [VStr s]) q ∧
  BaseQuery.ldap_attributes (snd (BaseQuery.ldap_attributes_setter (VStr s) q)) =
    Some [s] ∧
  BaseQuery.ldap_attributes (snd (BaseQuery.ldap_attributes_setter (VList l) q)) =
    Some (BaseQuery.only_str l) ∧
  (∀ s', s' ∈ BaseQuery.only_str l ↔ VStr s' ∈ l) ∧
  BaseQuery.only_str (VStr <$> BaseQuery.only_str l) = BaseQuery.only_str l.
Proof.
  repeat split; try done; try apply only_str_elem.
  induction l as [|v l IH]; [done|].
  destruct v; simpl; try done. by f_equal.
Qed.

(** X21: A positional string is the filter: filter() stores the first string
    among its positional arguments and does not look at the keyword
    criteria, so even criteria the model does not know cannot make it
    raise. *)
Theorem filter_string_wins (args : list value) (kwargs : list (string * string))
        (q : BaseQuery.t) (s : string) :
  Query.first_str args = Some s →
  Query.filter args kwargs q = (Ok tt, with_search_filter s q).
Proof.
  intros Hs. unfold Query.filter. run_method. by rewrite Hs.
Qed.

Lemma filter_string_wins_witness :
  Query.filter [VInt 7; VStr "(cn=Test User)"; VStr "(uid=x)"]
               [("shoe_size", "42")] user_query =
    (Ok tt, with_search_filter "(cn=Test User)" user_query).
Proof.
  apply (filter_string_wins [VInt 7; VStr "(cn=Test User)"; VStr "(uid=x)"]
           [("shoe_size", "42")] user_query "(cn=Test User)").
  reflexivity.
Defined.

(** X22: filter() without a string and without criteria does nothing: the
    filter stored before stays in force. *)
Theorem filter_without_criteria (args : list value) (q : BaseQuery.t) :
  Query.first_str args = None →
  Query.filter args [] q = (Ok tt, q).
Proof.
  intros Hs. unfold Query.filter. run_method. by rewrite Hs.
Qed.

Lemma filter_without_criteria_witness :
  Query.filter [VInt 7; VNone] [] (with_search_filter "(uid=alice)" user_query) =
    (Ok tt, with_search_filter "(uid=alice)" user_query).
Proof.
  apply (filter_without_criteria [VInt 7; VNone]
           (with_search_filter "(uid=alice)" user_query)).
  reflexivity.
Defined.

Lemma res_map_outcome {A B} (f : A → res B) (e : exn) (xs : list A) :
  (∀ x, f x = Raise e ∨ ∃ y, f x = Ok y) →
  res_map f xs = Raise e ∨
  ∃ ys, res_map f xs = Ok ys ∧ length ys = length xs.
Proof.
  intros Hf. induction xs as [|x xs IH]; simpl; [right; by exists []|].
  destruct (Hf x) as [->|[y ->]]; [by left|].
  destruct IH as [->|(ys & -> & Hlen)]; [by left|].
  right. exists (y :: ys). split; [done|]. simpl. by rewrite Hlen.
Qed.

Lemma parse_filter_kwargs_outcome (q : BaseQuery.t) (kwargs : list (string * string)) :
  Query._parse_filter_kwargs q kwargs = Raise AttributeError ∨
  ∃ parsed, Query._parse_filter_kwargs q kwargs = Ok parsed ∧
            length parsed = length kwargs.
Proof.
  apply res_map_outcome. intros [k v]. simpl.
  destruct (BaseQuery.model q) as [cls|]; [|right; by eexists].
  destruct (BaseModel.attribute_for_key cls k) as [[a| |]|];
    [right; by eexists|by left|by left|by left].
Qed.

(** X23: filter() touches the search filter only: it either stores a filter
    string and leaves everything else on the query as it was, or changes
    nothing; when it raises, which it does with AttributeError only, the
    query is unchanged; and a call with criteria and no positional string
    that returns has stored a filter. *)
Theorem filter_outcome (args : list value) (kwargs : list (string * string))
        (q : BaseQuery.t) :
  (Query.filter args kwargs q = (Raise AttributeError, q) ∨
   Query.filter args kwargs q = (Ok tt, q) ∨
   ∃ s, Query.filter args kwargs q = (Ok tt, with_search_filter s q)) ∧
  (Query.first_str args = None → kwargs ≠ [] →
   ∀ q', Query.filter args kwargs q = (Ok tt, q') →
         ∃ s, q' = with_search_filter s q).
Proof.
  unfold Query.filter, Query._filter_string_from_kwargs. run_method.
  destruct (Query.first_str args) as [s|].
  { split; [right; right; by exists s|done]. }
  destruct kwargs as [|kv kwargs].
  { split; [right; by left|done]. }
  cbn [length Nat.ltb Nat.leb].
  destruct (parse_filter_kwargs_outcome q (kv :: kwargs))
    as [->|(parsed & -> & Hlen)].
  { split; [by left|]. intros _ _ q' [=]. }
  unfold res_bind.
  destruct parsed as [|p1 [|p2 parsed]]; [done| |].
  - split; [right; right; by eexists|]. intros _ _ q' [= <-]. by eexists.
  - split; [right; right; by eexists|]. intros _ _ q' [= <-]. by eexists.
Qed.

Lemma filter_outcome_witness :
  ∃ s, snd (Query.filter [] [("username", "alice")] user_query) =
         with_search_filter s user_query.
Proof.
  refine (proj2 (filter_outcome [] [("username", "alice")] user_query)
            _ _ _ _); [reflexivity|discriminate|reflexivity].
Defined.

(** Calling a query with a model: an instance stands for its class; the
    model is replaced and nothing else stored on the query changes, so an
    earlier filter, search base and connection stay in force, while an
    attribute list that was never assigned now follows the new model. *)
Theorem call_switches_model (q : BaseQuery.t) (i : Instance) (cls : Model) :
  Query.__call__ (VInstance i) q = Query.__call__ (VClass (__class__ i)) q ∧
  ∃ q', Query.__call__ (VClass cls) q = (Ok tt, q') ∧
        BaseQuery.model q' = Some cls ∧
        BaseQuery._search_base q' = BaseQuery._search_base q ∧
        BaseQuery._search_filter q' = BaseQuery._search_filter q ∧
        BaseQuery._connection q' = BaseQuery._connection q ∧
        BaseQuery._ldap_attributes q' = BaseQuery._ldap_attributes q ∧
        BaseQuery._open_directory q' = BaseQuery._open_directory q ∧
        BaseQuery.ldap_attributes q' =
          match BaseQuery._ldap_attributes q with
          | Some attrs => Some attrs
          | None => Some (BaseModel.ldap_keys cls)
          end.
Proof.
  split; [done|]. eexists. split; [reflexivity|].
  repeat split.
Qed.

(** ** The open directory and its connections *)

Section OpenDirectoryFacts.
Variable env : BaseOpenDirectory.Env.
Variable self : BaseOpenDirectory.t.

Lemma connection_kept (w : BaseOpenDirectory.World) (c : Connection) :
  BaseOpenDirectory.top w = Some (Some c) →
  BaseOpenDirectory.connection env self w = (Some c, w).
Proof. intros Htop. unfold BaseOpenDirectory.connection. by rewrite Htop. Qed.

Lemma read_connection_kept (n : nat) (w : BaseOpenDirectory.World) (c : Connection) :
  BaseOpenDirectory.top w = Some (Some c) →
  read_connection env self n w = (replicate n (Some c), w).
Proof.
  intros Htop. induction n as [|n IH]; simpl; [done|].
  by rewrite (connection_kept w c Htop), IH.
Qed.

Lemma read_connection_outside (n : nat) (w : BaseOpenDirectory.World) :
  BaseOpenDirectory.top w = None →
  read_connection env self n w = (replicate n None, w).
Proof.
  intros Htop. induction n as [|n IH]; simpl; [done|].
  unfold BaseOpenDirectory.connection at 1. by rewrite Htop, IH.
Qed.
End OpenDirectoryFacts.

(** X25: The base dn of an open directory: a configured
    'OPEN_DIRECTORY_BASE_DN' is returned as it is, the empty string
    included, without consulting the server url; without one the base dn
    is what the server url gives, and the empty string if it gives
    nothing. *)
Theorem base_dn_precedence (env : BaseOpenDirectory.Env) (self : BaseOpenDirectory.t) :
  (∀ dn, BaseOpenDirectory.config self !! "OPEN_DIRECTORY_BASE_DN" = Some dn →
         BaseOpenDirectory.base_dn env self = dn) ∧
  (BaseOpenDirectory.config self !! "OPEN_DIRECTORY_BASE_DN" = None →
   BaseOpenDirectory.base_dn env self =
     default "" (BaseOpenDirectory.base_dn_from_url env
                   (BaseOpenDirectory.server_url self))).
Proof.
  unfold BaseOpenDirectory.base_dn. split.
  - intros dn ->. by destruct (String.eqb_spec dn "") as [->|].
  - intros ->.
    destruct (BaseOpenDirectory.base_dn_from_url env _) as [dn|]; [|done].
    simpl. by destruct (String.eqb_spec dn "") as [->|].
Qed.

Lemma base_dn_precedence_witness :
  BaseOpenDirectory.base_dn numbered
    {| BaseOpenDirectory.config :=
         <["OPEN_DIRECTORY_BASE_DN" := "dc=example,dc=com"]> ∅ |} =
    "dc=example,dc=com" ∧
  BaseOpenDirectory.base_dn numbered local_directory = "".
Proof.
  split.
  - apply (proj1 (base_dn_precedence numbered
             {| BaseOpenDirectory.config :=
                  <["OPEN_DIRECTORY_BASE_DN" := "dc=example,dc=com"]> ∅ |})).
    reflexivity.
  - apply (proj2 (base_dn_precedence numbered local_directory)). reflexivity.
Defined.

(** X26: Outside an application context the connection property is None on
    every access and creates nothing, while connection_ctx yields a new
    connection of its own (not bound at creation), which it does not put
    anywhere. *)
Theorem connection_outside_context (env : BaseOpenDirectory.Env)
        (self : BaseOpenDirectory.t) (w : BaseOpenDirectory.World) (n : nat) :
  BaseOpenDirectory.top w = None →
  read_connection env self n w = (replicate n None, w) ∧
  BaseOpenDirectory.connection_ctx env self w =
    (Some (BaseOpenDirectory.new_connection env
             (BaseOpenDirectory.server_url self) false
             (BaseOpenDirectory.created w)),
     {| BaseOpenDirectory.top := None;
        BaseOpenDirectory.created := S (BaseOpenDirectory.created w) |}).
Proof.
  intros Htop. split; [by apply read_connection_outside|].
  unfold BaseOpenDirectory.connection_ctx, BaseOpenDirectory.connection.
  rewrite Htop. simpl. by rewrite Htop.
Qed.

Lemma connection_outside_context_witness :
  read_connection numbered local_directory 3 outside_request =
    ([None; None; None], outside_request) ∧
  BaseOpenDirectory.connection_ctx numbered local_directory outside_request =
    (Some (BaseOpenDirectory.new_connection numbered "localhost" false 0),
     {| BaseOpenDirectory.top := None; BaseOpenDirectory.created := 1 |}).
Proof.
  apply (connection_outside_context numbered local_directory outside_request 3).
  reflexivity.
Defined.

(** X27: Inside an application context the connection is shared: every access
    of the connection property, however many follow each other, returns
    one and the same connection, which is the one kept on the context if
    there is one and otherwise a connection created (bound) on the first
    access and kept from then on; at most one connection is created. *)
Theorem connection_shared_in_context (env : BaseOpenDirectory.Env)
        (self : BaseOpenDirectory.t) (w : BaseOpenDirectory.World)
        (slot : option Connection) (n : nat) :
  BaseOpenDirectory.top w = Some slot →
  let c := match slot with
           | Some kept => kept
           | None => BaseOpenDirectory.new_connection env
                       (BaseOpenDirectory.server_url self) true
                       (BaseOpenDirectory.created w)
           end in
  read_connection env self (S n) w =
    (replicate (S n) (Some c),
     {| BaseOpenDirectory.top := Some (Some c);
        BaseOpenDirectory.created :=
          match slot with
          | Some _ => BaseOpenDirectory.created w
          | None => S (BaseOpenDirectory.created w)
          end |}).
Proof.
  intros Htop c. cbn [read_connection].
  destruct slot as [kept|]; subst c.
  - rewrite (connection_kept env self w kept Htop).
    rewrite (read_connection_kept env self n w kept Htop).
    by destruct w; simpl in *; subst.
  - unfold BaseOpenDirectory.connection at 1. rewrite Htop.
    unfold BaseOpenDirectory.connect. cbn.
    by erewrite read_connection_kept by reflexivity.
Qed.

Lemma connection_shared_in_context_witness :
  read_connection numbered local_directory 3 in_request =
    (replicate 3 (Some (BaseOpenDirectory.new_connection numbered "localhost" true 0)),
     {| BaseOpenDirectory.top :=
          Some (Some (BaseOpenDirectory.new_connection numbered "localhost" true 0));
        BaseOpenDirectory.created := 1 |}).
Proof.
  apply (connection_shared_in_context numbered local_directory in_request None 2).
  reflexivity.
Defined.

Lemma connection_ctx_yields (env : BaseOpenDirectory.Env)
        (self : BaseOpenDirectory.t) (w : BaseOpenDirectory.World) :
  ∃ c w', BaseOpenDirectory.connection_ctx env self w = (Some c, w') ∧
          BaseOpenDirectory.created w' ≤ S (BaseOpenDirectory.created w) ∧
          (BaseOpenDirectory.top w = None ∧ BaseOpenDirectory.top w' = None ∨
           BaseOpenDirectory.top w' = Some (Some c) ∧
           BaseOpenDirectory.connection env self w' = (Some c, w')).
Proof.
  unfold BaseOpenDirectory.connection_ctx, BaseOpenDirectory.connection.
  destruct (BaseOpenDirectory.top w) as [[kept|]|] eqn:Htop; simpl.
  - rewrite Htop. exists kept, w. split; [done|]. split; [lia|].
    right. by rewrite Htop.
  - eexists _, _. split; [done|]. simpl. split; [lia|]. by right.
  - eexists _, _. split; [done|]. simpl. split; [lia|]. by left.
Qed.

(** X28: connection_ctx always yields a connection, never None; inside an
    application context it is the shared one, which stays on the
    context; in any case at most one connection is created. *)
Theorem connection_ctx_always_yields (env : BaseOpenDirectory.Env)
        (self : BaseOpenDirectory.t) (w : BaseOpenDirectory.World) :
  ∃ c w', BaseOpenDirectory.connection_ctx env self w = (Some c, w') ∧
          BaseOpenDirectory.created w' ≤ S (BaseOpenDirectory.created w) ∧
          (BaseOpenDirectory.top w = None ∧ BaseOpenDirectory.top w' = None ∨
           BaseOpenDirectory.top w' = Some (Some c) ∧
           BaseOpenDirectory.connection env self w' = (Some c, w')).
Proof. exact (connection_ctx_yields env self w). Qed.

(** X29: A query bound to a BaseOpenDirectory always has a connection to
    search through, in or out of an application context. *)
Theorem bound_query_finds_connection (env : BaseOpenDirectory.Env)
        (self : BaseOpenDirectory.t) (w : BaseOpenDirectory.World)
        (q : BaseQuery.t) :
  BaseQuery._open_directory q = Some (BaseOpenDirectory.as_abc env self w) →
  is_Some (BaseQuery.connection_ctx q).
Proof.
  intros Hod.
  unfold BaseQuery.connection_ctx, BaseQuery.connection, BaseQuery.open_directory.
  rewrite Hod. destruct (BaseQuery._connection q) as [c|]; [by eexists|].
  simpl. destruct (fst (BaseOpenDirectory.connection env self w)); [by eexists|].
  destruct (connection_ctx_yields env self w) as (c & w' & -> & _).
  by eexists.
Qed.

Lemma bound_query_finds_connection_witness :
  is_Some (BaseQuery.connection_ctx
             (snd (BaseQuery.open_directory_setter
                     (VOpenDirectory
                        (BaseOpenDirectory.as_abc numbered local_directory
                           outside_request))
                     BaseQuery.blank))).
Proof.
  apply (bound_query_finds_connection numbered local_directory outside_request).
  reflexivity.
Defined.

(** ** Construction of a query *)

Section Validation.
Variable q : BaseQuery.t.

Lemma model_setter_validates v :
  fst (BaseQuery.model_setter v q) =
    if accepts_model v then Ok tt else Raise TypeError.
Proof.
  unfold BaseQuery.model_setter, accepts_model.
  destruct (truthy v); [|done]. by destruct v.
Qed.

Lemma connection_setter_validates v :
  fst (BaseQuery.connection_setter v q) =
    if accepts_connection v then Ok tt else Raise TypeError.
Proof.
  unfold BaseQuery.connection_setter, accepts_connection.
  destruct (truthy v); [|done]. by destruct v.
Qed.

Lemma ldap_attributes_setter_validates v :
  fst (BaseQuery.ldap_attributes_setter v q) =
    if accepts_attributes v then Ok tt else Raise TypeError.
Proof. by destruct v. Qed.

Lemma open_directory_setter_validates v :
  fst (BaseQuery.open_directory_setter v q) =
    if accepts_open_directory v then Ok tt else Raise TypeError.
Proof. by destruct v. Qed.
End Validation.

(** Sequencing two methods: the outcome of the second counts only when
    the first returns. *)
Lemma then_outcome {A B} (m : BaseQuery.M A) (k : BaseQuery.M B) (q : BaseQuery.t) :
  fst ((m ;; k) q) =
    match fst (m q) with
    | Ok _ => fst (k (snd (m q)))
    | Raise e => Raise e
    end.
Proof. run_method. by destruct (m q) as [[a|e] q']. Qed.

(** X24: The constructor validates its arguments: building a query raises
    TypeError exactly when the connection is truthy and no connection,
    or the attribute list is neither None, a string nor an iterable, or
    the model is truthy and no model, or the open directory is neither
    None nor an open directory; otherwise it returns. *)
Theorem init_validates (open_directory model : value)
        (search_base search_filter : option string)
        (connection ldap_attributes : value) :
  fst (BaseQuery.__init__ open_directory model search_base search_filter
         connection ldap_attributes BaseQuery.blank) =
    if accepts_connection connection && accepts_attributes ldap_attributes &&
       accepts_model model && accepts_open_directory open_directory
    then Ok tt else Raise TypeError.
Proof.
  unfold BaseQuery.__init__.
  rewrite then_outcome.
  assert (∀ v q, fst (BaseQuery.search_base_setter v q) = Ok tt) as Hsb
    by (by intros [s|] q).
  assert (∀ v q, fst (BaseQuery.search_filter_setter v q) = Ok tt) as Hsf
    by (by intros [s|] q).
  rewrite Hsb, then_outcome, Hsf, then_outcome, connection_setter_validates.
  destruct (accepts_connection connection); [|done].
  rewrite then_outcome, ldap_attributes_setter_validates.
  destruct (accepts_attributes ldap_attributes); [|done].
  rewrite then_outcome, model_setter_validates.
  destruct (accepts_model model); [|done].
  rewrite open_directory_setter_validates.
  by destruct (accepts_open_directory open_directory).
Qed.

(** ** Membership tests on converted entries *)

(** X11: The group model converted from a directory entry with plain keys
    answers has_user with a boolean for every identifier; it never
    raises, because everything the conversion stores is a list. *)
Theorem has_user_on_converted_entry (e : Entry) (user : string) :
  plain_entry Group e →
  ∃ b, has_user (BaseModel.__init__ Group (BaseModel.entry_kwargs e)) user = Ok b.
Proof.
  intros _.
  set (self := BaseModel.__init__ Group (BaseModel.entry_kwargs e)).
  assert (__class__ self = Group) as Hcls.
  { unfold self, BaseModel.__init__.
    change (fold_left _ ?kw ?x) with (setattrs kw x). by rewrite setattrs_class. }
  assert (∀ n, ∃ l, member_list (_ldap_values self !! n) = Some l) as Hlist.
  { intros n. destruct (_ldap_values self !! n) as [v|] eqn:Hlook; [|by eexists].
    apply init_stores_origin in Hlook as (key & Hin & _).
    unfold BaseModel.entry_kwargs in Hin.
    apply list_elem_of_fmap in Hin as ([k vals] & [= _ ->] & _).
    by eexists. }
  destruct (Hlist "users") as [us Hus], (Hlist "member_ids") as [ms Hms].
  unfold has_user.
  rewrite group_getattribute_users, group_getattribute_member_ids by done.
  destruct (member_test user _ _ Hus) as (bu & Hbu & _).
  destruct (member_test user _ _ Hms) as (bm & Hbm & _).
  cbn [mbind res_bind]. rewrite Hbu. destruct bu; cbn [mbind res_bind].
  - by eexists.
  - rewrite Hbm. by destruct bm; eexists.
Qed.

Lemma has_user_on_converted_entry_witness :
  ∃ b, has_user (BaseModel.__init__ Group (BaseModel.entry_kwargs staff_entry))
         "bob" = Ok b.
Proof.
  apply (has_user_on_converted_entry staff_entry "bob").
  unfold plain_entry.
  repeat (constructor;
          [unfold plain_key; apply (bool_decide_unpack _); vm_compute; exact I|]).
  constructor.
Defined.
